(** * Offline audio-language inference example: prompt builders and runner

    A shallow embedding of [examples/offline_inference/audio_language.py].
    The script registers one prompt builder per audio language model and a
    runner ([main]) that looks a builder up, merges the per-modality limits,
    constructs the engine and issues one [generate] call.

    Python integers are [Z], strings are [string], dictionaries are [gmap],
    [None]-able values are [option], raised exceptions are the left summand
    of [result].  Calls into the inference engine are recorded in a trace of
    events threaded through [main]. *)

From Stdlib Require Import QArith Ascii String.
From stdpp Require Import gmap strings list fin_maps pretty.

Open Scope string_scope.
Open Scope list_scope.
Open Scope Z_scope.

(** ** Python primitives used by the script *)

Module Py.

Inductive exn : Type :=
| AssertionError (msg : option string)
| ValueError (msg : string)
| KeyError
| IndexError.

Definition result (A : Type) : Type := (exn + A)%type.

Definition ok {A} (a : A) : result A := inr a.
Definition raise {A} (e : exn) : result A := inl e.

Definition rbind {A B} (r : result A) (k : A -> result B) : result B :=
  match r with
  | inl e => inl e
  | inr a => k a
  end.

(** [assert cond, msg] *)
Definition assert_ (cond : bool) (msg : option string) : result unit :=
  if cond then ok tt else raise (AssertionError msg).

(** The newline character written [\n] in the source literals. *)
Definition nl : string := String "010"%char EmptyString.

(** [s * n] on strings: [n] copies of [s], none when [n <= 0]. *)
Fixpoint str_rep (s : string) (n : nat) : string :=
  match n with
  | O => ""
  | S n' => s +:+ str_rep s n'
  end.
Definition str_mul (s : string) (n : Z) : string := str_rep s (Z.to_nat n).

(** [l * n] on lists. *)
Fixpoint list_rep {A} (l : list A) (n : nat) : list A :=
  match n with
  | O => []
  | S n' => (l ++ list_rep l n')%list
  end.
Definition list_mul {A} (l : list A) (n : Z) : list A :=
  list_rep l (Z.to_nat n).

(** [range(n)] *)
Definition range (n : Z) : list Z :=
  (fun i : nat => Z.of_nat i) <$> seq 0 (Z.to_nat n).

(** [sep.join(parts)] with the empty separator, as the script uses it. *)
Definition join (parts : list string) : string :=
  foldr (fun s acc => s +:+ acc) "" parts.

(** [str(i)] / the rendering of an integer inside an f-string. *)
Definition str_of_int (i : Z) : string := pretty i.

(** [l[i]]: negative indices count from the end, out of range raises. *)
Definition index {A} (l : list A) (i : Z) : result A :=
  let j := if bool_decide (i < 0) then i + Z.of_nat (length l) else i in
  if bool_decide (j < 0) then raise IndexError
  else match l !! Z.to_nat j with
       | Some a => ok a
       | None => raise IndexError
       end.

(** [l[:n]]: a negative bound counts from the end; never raises. *)
Definition slice_to {A} (l : list A) (n : Z) : list A :=
  if bool_decide (n < 0)
  then take (Z.to_nat (Z.of_nat (length l) + n)) l
  else take (Z.to_nat n) l.

(** [d[k]] on a dictionary. *)
Definition getitem `{Countable K} {V} (d : gmap K V) (k : K) : result V :=
  match d !! k with
  | Some v => ok v
  | None => raise KeyError
  end.

(** [a | b] on dictionaries: on a shared key the right operand wins. *)
Definition dict_or `{Countable K} {V} (a b : gmap K V) : gmap K V := b ∪ a.

(** Truthiness of an optional string, list and dictionary. *)
Definition truthy_str (o : option string) : bool :=
  match o with
  | Some s => negb (String.eqb s "")
  | None => false
  end.

Definition truthy_list {A} (o : option (list A)) : bool :=
  match o with
  | Some (_ :: _) => true
  | _ => false
  end.

Definition truthy_dict `{Countable K} {V} (o : option (gmap K V)) : bool :=
  match o with
  | Some d => negb (bool_decide (dom d = ∅))
  | None => false
  end.

(** [o or {}] *)
Definition or_empty `{Countable K} {V} (o : option (gmap K V)) : gmap K V :=
  match o with
  | Some d => if truthy_dict (Some d) then d else ∅
  | None => ∅
  end.

End Py.

Import Py.

Notation "x <- c1 ;; c2" := (rbind c1 (fun x => c2))
  (at level 100, c1 at next level, right associativity).

(** ** Data model *)

(** [vllm.EngineArgs], restricted to the keywords the builders pass.  A
    keyword a builder does not pass is [None]: the engine's own default. *)
Record EngineArgs : Type := mkEngineArgs {
  model : string;
  max_model_len : option Z;
  max_num_seqs : option Z;
  limit_mm_per_prompt : option (gmap string Z);
  config_format : option string;
  load_format : option string;
  tokenizer_mode : option string;
  enforce_eager : option bool;
  enable_chunked_prefill : option bool;
  trust_remote_code : option bool;
  enable_lora : option bool;
  max_lora_rank : option Z
}.

(** [LoRARequest(name, id, path)] *)
Record LoRARequest : Type := mkLoRARequest {
  lora_name : string;
  lora_int_id : Z;
  lora_path : string
}.

(** [AudioAsset(name)] *)
Record AudioAsset : Type := mkAudioAsset { asset_name : string }.

Definition audio_assets : list AudioAsset :=
  [mkAudioAsset "mary_had_lamb"; mkAudioAsset "winning_call"].

Definition question_per_audio_count : gmap Z string :=
  {[ 0 := "What is 1+1?";
     1 := "What is recited in the audio?";
     2 := "What sport and what nursery rhyme are referenced?" ]}.

(** A chat message [{"role": r, "content": c}]. *)
Record message : Type := mkMessage { role : string; content : string }.

(** The value stored in the [prompt_token_ids] field.  Python does not
    check the annotation [dict[str, list[int]]], so the field can hold
    either shape. *)
Inductive token_ids : Type :=
| IdsList (ids : list Z)
| IdsMapping (m : gmap string (list Z)).

Definition is_mapping (v : token_ids) : bool :=
  match v with
  | IdsMapping _ => true
  | IdsList _ => false
  end.

(** [mistral_common.audio.Audio], with the two attributes the script reads. *)
Record Audio (W R : Type) : Type := mkAudio {
  audio_array : W;
  sampling_rate : R
}.
Arguments mkAudio {W R}.
Arguments audio_array {W R}.
Arguments sampling_rate {W R}.

(** The answer of [encode_chat_completion]: the flat list of token ids of
    the encoded request, and the audio clips it refers to. *)
Record Tokenized (W R : Type) : Type := mkTokenized {
  tokens : list Z;
  audios : list (Audio W R)
}.
Arguments mkTokenized {W R}.
Arguments tokens {W R}.
Arguments audios {W R}.

(** ** External collaborators

    The tokenizers, the model hub, the bundled audio assets and the engine
    are libraries outside the script.  They are taken as an interface; every
    operation is assumed to return (a failure inside one of them ends the
    process and is outside what is stated here). *)

Class Externals : Type := {
  (** a decoded waveform array and a sampling rate *)
  waveform : Type;
  rate : Type;
  (** [AudioAsset.get_local_path], rendered with [str] *)
  get_local_path : AudioAsset -> string;
  (** [AudioAsset.audio_and_sample_rate] *)
  audio_and_sample_rate : AudioAsset -> waveform * rate;
  (** [mistral_common.audio.Audio.from_file(path, strict=...)] *)
  Audio_from_file : string -> bool -> Audio waveform rate;
  (** [RawAudio.from_audio] *)
  RawAudio : Type;
  RawAudio_from_audio : Audio waveform rate -> RawAudio;
  (** [MistralTokenizer.from_hf_hub(name).encode_chat_completion(req)]:
      the tokenizer's hub name, then the request: its model name and the
      chunks (audio or text) of its single user message *)
  encode_chat_completion :
    string -> string -> list (RawAudio + string) -> Tokenized waveform rate;
  (** [AutoTokenizer.from_pretrained(name, trust_remote_code=...)] *)
  HFTokenizer : Type;
  AutoTokenizer_from_pretrained : string -> bool -> HFTokenizer;
  (** [tok.apply_chat_template(messages, tokenize=False,
      add_generation_prompt=..., chat_template=...)] *)
  apply_chat_template :
    HFTokenizer -> list message -> bool -> option string -> string;
  (** [tok.convert_tokens_to_ids(token)] *)
  convert_tokens_to_ids : HFTokenizer -> string -> Z;
  (** [huggingface_hub.snapshot_download(repo, revision=...)] *)
  snapshot_download : string -> option string -> string;
  (** [os.path.join] *)
  os_path_join : string -> string -> string
}.

Section Script.

Context `{Ext : Externals}.

(** The multimodal payload [{"audio": [(waveform, rate), ...]}]. *)
Definition mm_payload : Type := gmap string (list (waveform * rate)).

Record ModelRequestData : Type := mkModelRequestData {
  engine_args : EngineArgs;
  prompt : option string;
  prompt_token_ids : option token_ids;
  multi_modal_data : option mm_payload;
  stop_token_ids : option (list Z);
  lora_requests : option (list LoRARequest)
}.

(** ** The builders *)

(** [[f(i) for i in range(n)]] where [f] may raise. *)
Fixpoint comprehension {A B} (f : A -> result B) (l : list A) : result (list B) :=
  match l with
  | [] => ok []
  | a :: l' =>
      b <- f a;;
      bs <- comprehension f l';;
      ok (b :: bs)
  end.

Definition run_voxtral (question : string) (audio_count : Z)
  : result ModelRequestData :=
  let model_name := "mistralai/Voxtral-Mini-3B-2507" in
  let engine_args :=
    {| model := model_name;
       max_model_len := Some 8192;
       max_num_seqs := Some 2;
       limit_mm_per_prompt := Some {[ "audio" := audio_count ]};
       config_format := Some "mistral";
       load_format := Some "mistral";
       tokenizer_mode := Some "mistral";
       enforce_eager := Some true;
       enable_chunked_prefill := Some false;
       trust_remote_code := None;
       enable_lora := None;
       max_lora_rank := None |} in
  let text_chunk : RawAudio + string := inr question in
  loaded <- comprehension
              (fun i => asset <- index audio_assets i;;
                        ok (Audio_from_file (get_local_path asset) false))
              (range audio_count);;
  let audio_chunks : list (RawAudio + string) :=
    (fun audio => inl (RawAudio_from_audio audio)) <$> loaded in
  let tokenized :=
    encode_chat_completion model_name model_name (audio_chunks ++ [text_chunk]) in
  let prompt_ids := tokens tokenized in
  let audios' := audios tokenized in
  let audios_and_sr := (fun au => (audio_array au, sampling_rate au)) <$> audios' in
  let multi_modal_data : mm_payload := {[ "audio" := audios_and_sr ]} in
  ok {| engine_args := engine_args;
        prompt := None;
        prompt_token_ids := Some (IdsList prompt_ids);
        multi_modal_data := Some multi_modal_data;
        stop_token_ids := None;
        lora_requests := None |}.

Definition run_granite_speech (question : string) (audio_count : Z)
  : result ModelRequestData :=
  let model_name := "ibm-granite/granite-speech-3.3-8b" in
  let engine_args :=
    {| model := model_name;
       max_model_len := Some 2048;
       max_num_seqs := Some 2;
       limit_mm_per_prompt := Some {[ "audio" := audio_count ]};
       config_format := None;
       load_format := None;
       tokenizer_mode := None;
       enforce_eager := None;
       enable_chunked_prefill := None;
       trust_remote_code := Some true;
       enable_lora := Some true;
       max_lora_rank := Some 64 |} in
  let speech_lora_path := model_name in
  let audio_placeholder := str_mul "<|audio|>" audio_count in
  let prompts :=
    "<|start_of_role|>system<|end_of_role|>Knowledge Cutoff Date: April 2024."
    +:+ nl +:+ "Today's Date: December 19, 2024." +:+ nl
    +:+ "You are Granite, developed by IBM. You are a helpful AI assistant<|end_of_text|>"
    +:+ nl +:+ "<|start_of_role|>user<|end_of_role|>"
    +:+ audio_placeholder +:+ question +:+ "<|end_of_text|>" +:+ nl
    +:+ "<|start_of_role|>assistant<|end_of_role|>" in
  ok {| engine_args := engine_args;
        prompt := Some prompts;
        prompt_token_ids := None;
        multi_modal_data := None;
        stop_token_ids := None;
        lora_requests := Some [mkLoRARequest "speech" 1 speech_lora_path] |}.

Definition run_minicpmo (question : string) (audio_count : Z)
  : result ModelRequestData :=
  let model_name := "openbmb/MiniCPM-o-2_6" in
  let tokenizer := AutoTokenizer_from_pretrained model_name true in
  let engine_args :=
    {| model := model_name;
       max_model_len := Some 4096;
       max_num_seqs := Some 2;
       limit_mm_per_prompt := Some {[ "audio" := audio_count ]};
       config_format := None;
       load_format := None;
       tokenizer_mode := None;
       enforce_eager := None;
       enable_chunked_prefill := None;
       trust_remote_code := Some true;
       enable_lora := None;
       max_lora_rank := None |} in
  let stop_tokens := ["<|im_end|>"; "<|endoftext|>"] in
  let stop_token_ids := convert_tokens_to_ids tokenizer <$> stop_tokens in
  let audio_placeholder := str_mul "(<audio>./</audio>)" audio_count in
  let audio_chat_template :=
    "{% for message in messages %}{{'<|im_start|>' + message['role'] + '"
    +:+ nl +:+ "' + message['content'] + '<|im_end|>' + '" +:+ nl
    +:+ "'}}{% endfor %}{% if add_generation_prompt %}{{ '<|im_start|>assistant"
    +:+ nl +:+ "<|spk_bos|><|spk|><|spk_eos|><|tts_bos|>' }}{% endif %}" in
  let messages :=
    [mkMessage "user" (audio_placeholder +:+ nl +:+ question)] in
  let prompt :=
    apply_chat_template tokenizer messages true (Some audio_chat_template) in
  ok {| engine_args := engine_args;
        prompt := Some prompt;
        prompt_token_ids := None;
        multi_modal_data := None;
        stop_token_ids := Some stop_token_ids;
        lora_requests := None |}.

Definition run_phi4mm (question : string) (audio_count : Z)
  : result ModelRequestData :=
  let model_path := snapshot_download "microsoft/Phi-4-multimodal-instruct" None in
  let speech_lora_path := os_path_join model_path "speech-lora" in
  let placeholders :=
    join ((fun i => "<|audio_" +:+ str_of_int (i + 1) +:+ "|>")
            <$> range audio_count) in
  let prompts :=
    "<|user|>" +:+ placeholders +:+ question +:+ "<|end|><|assistant|>" in
  let engine_args :=
    {| model := model_path;
       max_model_len := Some 12800;
       max_num_seqs := Some 2;
       limit_mm_per_prompt := Some {[ "audio" := audio_count ]};
       config_format := None;
       load_format := None;
       tokenizer_mode := None;
       enforce_eager := None;
       enable_chunked_prefill := None;
       trust_remote_code := Some true;
       enable_lora := Some true;
       max_lora_rank := Some 320 |} in
  ok {| engine_args := engine_args;
        prompt := Some prompts;
        prompt_token_ids := None;
        multi_modal_data := None;
        stop_token_ids := None;
        lora_requests := Some [mkLoRARequest "speech" 1 speech_lora_path] |}.

Definition run_phi4_multimodal (question : string) (audio_count : Z)
  : result ModelRequestData :=
  let model_path :=
    snapshot_download "microsoft/Phi-4-multimodal-instruct" (Some "refs/pr/70") in
  let speech_lora_path := os_path_join model_path "speech-lora" in
  let placeholders := str_mul "<|audio|>" audio_count in
  let prompts :=
    "<|user|>" +:+ placeholders +:+ question +:+ "<|end|><|assistant|>" in
  let engine_args :=
    {| model := model_path;
       max_model_len := Some 12800;
       max_num_seqs := Some 2;
       limit_mm_per_prompt := Some {[ "audio" := audio_count ]};
       config_format := None;
       load_format := None;
       tokenizer_mode := None;
       enforce_eager := None;
       enable_chunked_prefill := None;
       trust_remote_code := None;
       enable_lora := Some true;
       max_lora_rank := Some 320 |} in
  ok {| engine_args := engine_args;
        prompt := Some prompts;
        prompt_token_ids := None;
        multi_modal_data := None;
        stop_token_ids := None;
        lora_requests := Some [mkLoRARequest "speech" 1 speech_lora_path] |}.

(** The placeholder that stands for one audio clip in the Qwen prompts. *)
Definition qwen_audio_block : string := "<|audio_bos|><|AUDIO|><|audio_eos|>".

Definition run_qwen2_audio (question : string) (audio_count : Z)
  : result ModelRequestData :=
  let model_name := "Qwen/Qwen2-Audio-7B-Instruct" in
  let engine_args :=
    {| model := model_name;
       max_model_len := Some 4096;
       max_num_seqs := Some 5;
       limit_mm_per_prompt := Some {[ "audio" := audio_count ]};
       config_format := None;
       load_format := None;
       tokenizer_mode := None;
       enforce_eager := None;
       enable_chunked_prefill := None;
       trust_remote_code := None;
       enable_lora := None;
       max_lora_rank := None |} in
  let audio_in_prompt :=
    join ((fun idx =>
             "Audio " +:+ str_of_int (idx + 1) +:+ ": " +:+ qwen_audio_block +:+ nl)
            <$> range audio_count) in
  let prompt :=
    "<|im_start|>system" +:+ nl +:+ "You are a helpful assistant.<|im_end|>" +:+ nl
    +:+ "<|im_start|>user" +:+ nl
    +:+ audio_in_prompt +:+ question +:+ "<|im_end|>" +:+ nl
    +:+ "<|im_start|>assistant" +:+ nl in
  ok {| engine_args := engine_args;
        prompt := Some prompt;
        prompt_token_ids := None;
        multi_modal_data := None;
        stop_token_ids := None;
        lora_requests := None |}.

Definition run_qwen2_5_omni (question : string) (audio_count : Z)
  : result ModelRequestData :=
  let model_name := "Qwen/Qwen2.5-Omni-7B" in
  let engine_args :=
    {| model := model_name;
       max_model_len := Some 4096;
       max_num_seqs := Some 5;
       limit_mm_per_prompt := Some {[ "audio" := audio_count ]};
       config_format := None;
       load_format := None;
       tokenizer_mode := None;
       enforce_eager := None;
       enable_chunked_prefill := None;
       trust_remote_code := None;
       enable_lora := None;
       max_lora_rank := None |} in
  let audio_in_prompt :=
    join ((fun idx : Z => qwen_audio_block +:+ nl) <$> range audio_count) in
  let default_system :=
    "You are Qwen, a virtual human developed by the Qwen Team, Alibaba "
    +:+ "Group, capable of perceiving auditory and visual inputs, as well as "
    +:+ "generating text and speech." in
  let prompt :=
    "<|im_start|>system" +:+ nl +:+ default_system +:+ "<|im_end|>" +:+ nl
    +:+ "<|im_start|>user" +:+ nl
    +:+ audio_in_prompt +:+ question +:+ "<|im_end|>" +:+ nl
    +:+ "<|im_start|>assistant" +:+ nl in
  ok {| engine_args := engine_args;
        prompt := Some prompt;
        prompt_token_ids := None;
        multi_modal_data := None;
        stop_token_ids := None;
        lora_requests := None |}.

Definition run_ultravox (question : string) (audio_count : Z)
  : result ModelRequestData :=
  let model_name := "fixie-ai/ultravox-v0_5-llama-3_2-1b" in
  let tokenizer := AutoTokenizer_from_pretrained model_name false in
  let messages :=
    [mkMessage "user" (str_mul ("<|audio|>" +:+ nl) audio_count +:+ question)] in
  let prompt := apply_chat_template tokenizer messages true None in
  let engine_args :=
    {| model := model_name;
       max_model_len := Some 4096;
       max_num_seqs := Some 5;
       limit_mm_per_prompt := Some {[ "audio" := audio_count ]};
       config_format := None;
       load_format := None;
       tokenizer_mode := None;
       enforce_eager := None;
       enable_chunked_prefill := None;
       trust_remote_code := Some true;
       enable_lora := None;
       max_lora_rank := None |} in
  ok {| engine_args := engine_args;
        prompt := Some prompt;
        prompt_token_ids := None;
        multi_modal_data := None;
        stop_token_ids := None;
        lora_requests := None |}.

Definition run_whisper (question : string) (audio_count : Z)
  : result ModelRequestData :=
  _ <- assert_ (bool_decide (audio_count = 1))
         (Some "Whisper only support single audio input per prompt");;
  let model_name := "openai/whisper-large-v3-turbo" in
  let prompt := "<|startoftranscript|>" in
  let engine_args :=
    {| model := model_name;
       max_model_len := Some 448;
       max_num_seqs := Some 5;
       limit_mm_per_prompt := Some {[ "audio" := audio_count ]};
       config_format := None;
       load_format := None;
       tokenizer_mode := None;
       enforce_eager := None;
       enable_chunked_prefill := None;
       trust_remote_code := None;
       enable_lora := None;
       max_lora_rank := None |} in
  ok {| engine_args := engine_args;
        prompt := Some prompt;
        prompt_token_ids := None;
        multi_modal_data := None;
        stop_token_ids := None;
        lora_requests := None |}.

(** ** The registry *)

(** The builders, as the values of [model_example_map]. *)
Inductive builder : Type :=
| Run_voxtral
| Run_granite_speech
| Run_minicpmo
| Run_phi4mm
| Run_phi4_multimodal
| Run_qwen2_audio
| Run_qwen2_5_omni
| Run_ultravox
| Run_whisper.

#[export] Instance builder_eq_dec : EqDecision builder.
Proof. solve_decision. Defined.

(** Calling a registered builder. *)
Definition call (b : builder) : string -> Z -> result ModelRequestData :=
  match b with
  | Run_voxtral => run_voxtral
  | Run_granite_speech => run_granite_speech
  | Run_minicpmo => run_minicpmo
  | Run_phi4mm => run_phi4mm
  | Run_phi4_multimodal => run_phi4_multimodal
  | Run_qwen2_audio => run_qwen2_audio
  | Run_qwen2_5_omni => run_qwen2_5_omni
  | Run_ultravox => run_ultravox
  | Run_whisper => run_whisper
  end.

Definition model_example_map : gmap string builder :=
  {[ "voxtral" := Run_voxtral;
     "granite_speech" := Run_granite_speech;
     "minicpmo" := Run_minicpmo;
     "phi4_mm" := Run_phi4mm;
     "phi4_multimodal" := Run_phi4_multimodal;
     "qwen2_audio" := Run_qwen2_audio;
     "qwen2_5_omni" := Run_qwen2_5_omni;
     "ultravox" := Run_ultravox;
     "whisper" := Run_whisper ]}.

(** ** The command line *)

Record Args : Type := mkArgs {
  model_type : string;
  num_prompts : Z;
  num_audios : Z;
  seed : option Z
}.

(** [choices=[0, 1, 2]] of [--num-audios] in [parse_args]. *)
Definition num_audios_choices : list Z := [0; 1; 2].

(** The defaults [parse_args] fills in. *)
Definition default_args : Args :=
  {| model_type := "ultravox"; num_prompts := 1; num_audios := 1; seed := None |}.

(** ** What the runner hands to the engine *)

(** [asdict(req_data.engine_args) | {"seed": args.seed}], the keywords of
    [LLM(...)]. *)
Record LLMKwargs : Type := mkLLMKwargs {
  llm_engine_args : EngineArgs;
  llm_seed : option Z
}.

Record SamplingParams : Type := mkSamplingParams {
  temperature : Q;
  max_tokens : Z;
  sampling_stop_token_ids : option (list Z)
}.

(** The values of the [inputs] dictionary. *)
Inductive input_value : Type :=
| VMultiModal (d : mm_payload)
| VPrompt (s : string)
| VTokenIds (v : option token_ids).

(** [generate] receives one [inputs] dictionary, or a list of them. *)
Inductive gen_inputs : Type :=
| OneInput (i : gmap string input_value)
| Batch (l : list (gmap string input_value)).

Inductive event : Type :=
| EvBuilder (b : builder) (question : string) (audio_count : Z)
| EvLLM (kw : LLMKwargs)
| EvGenerate (inputs : gen_inputs) (sp : SamplingParams)
             (lora_request : option (list LoRARequest))
| EvPrint (s : string).

(** [llm.generate(inputs, sampling_params=..., lora_request=...)]: one
    result per input, each with the texts of its completions. *)
Variable llm_generate :
  LLMKwargs -> gen_inputs -> SamplingParams -> option (list LoRARequest) ->
  list (list string).

(** ** The runner's monad: a trace of engine events and a possible exception *)

Definition M (A : Type) : Type := list event -> list event * result A.

Definition mret {A} (a : A) : M A := fun t => (t, ok a).

Definition mbind {A B} (m : M A) (k : A -> M B) : M B :=
  fun t =>
    match m t with
    | (t', inl e) => (t', inl e)
    | (t', inr a) => k a t'
    end.

Definition emit (e : event) : M unit := fun t => ((t ++ [e])%list, ok tt).

Definition lift {A} (r : result A) : M A := fun t => (t, r).

Notation "x <~ c1 ;; c2" := (mbind c1 (fun x => c2))
  (at level 100, c1 at next level, right associativity).

(** ** The runner *)

Definition default_limits : gmap string Z :=
  {[ "image" := 0; "video" := 0; "audio" := 0 ]}.

(** [default_limits | dict(declared or {})] *)
Definition merge_limits (declared : option (gmap string Z)) : gmap string Z :=
  dict_or default_limits (or_empty declared).

(** [engine_args.limit_mm_per_prompt = v] *)
Definition set_limit_mm_per_prompt (ea : EngineArgs) (v : gmap string Z)
  : EngineArgs :=
  {| model := model ea;
     max_model_len := max_model_len ea;
     max_num_seqs := max_num_seqs ea;
     limit_mm_per_prompt := Some v;
     config_format := config_format ea;
     load_format := load_format ea;
     tokenizer_mode := tokenizer_mode ea;
     enforce_eager := enforce_eager ea;
     enable_chunked_prefill := enable_chunked_prefill ea;
     trust_remote_code := trust_remote_code ea;
     enable_lora := enable_lora ea;
     max_lora_rank := max_lora_rank ea |}.

(** The payload [main] builds when the builder gave none. *)
Definition default_mm_data (audio_count : Z) : mm_payload :=
  if bool_decide (audio_count > 0)
  then {[ "audio" := audio_and_sample_rate <$> slice_to audio_assets audio_count ]}
  else ∅.

(** [mm_data] after the [if not mm_data:] block. *)
Definition build_mm_data (req_data : ModelRequestData) (audio_count : Z)
  : mm_payload :=
  match multi_modal_data req_data with
  | Some d =>
      if truthy_dict (Some d) then d else default_mm_data audio_count
  | None => default_mm_data audio_count
  end.

(** The [inputs] dictionary. *)
Definition build_inputs (req_data : ModelRequestData) (mm_data : mm_payload)
  : gmap string input_value :=
  let inputs : gmap string input_value :=
    {[ "multi_modal_data" := VMultiModal mm_data ]} in
  match prompt req_data with
  | Some p =>
      if truthy_str (Some p)
      then <[ "prompt" := VPrompt p ]> inputs
      else <[ "prompt_token_ids" := VTokenIds (prompt_token_ids req_data) ]> inputs
  | None =>
      <[ "prompt_token_ids" := VTokenIds (prompt_token_ids req_data) ]> inputs
  end.

(** [[inputs] * num_prompts] when [num_prompts > 1]. *)
Definition batch_inputs (inputs : gmap string input_value) (num_prompts : Z)
  : gen_inputs :=
  if bool_decide (num_prompts > 1)
  then Batch (list_mul [inputs] num_prompts)
  else OneInput inputs.

(** [lora_requests * num_prompts if lora_requests else None] *)
Definition build_lora_request (req_data : ModelRequestData) (num_prompts : Z)
  : option (list LoRARequest) :=
  match lora_requests req_data with
  | Some l => if truthy_list (Some l) then Some (list_mul l num_prompts) else None
  | None => None
  end.

(** [for o in outputs: print(o.outputs[0].text)] *)
Fixpoint print_outputs (outputs : list (list string)) : M unit :=
  match outputs with
  | [] => mret tt
  | o :: rest =>
      generated_text <~ lift (index o 0);;
      _ <~ emit (EvPrint generated_text);;
      print_outputs rest
  end.

(** The keywords of [LLM(...)]: the builder's engine arguments with the
    merged limits, and the seed. *)
Definition llm_kwargs (args : Args) (req_data : ModelRequestData) : LLMKwargs :=
  let limits := merge_limits (limit_mm_per_prompt (engine_args req_data)) in
  {| llm_engine_args := set_limit_mm_per_prompt (engine_args req_data) limits;
     llm_seed := seed args |}.

(** [SamplingParams(temperature=0.2, max_tokens=64, stop_token_ids=...)] *)
Definition make_sampling_params (req_data : ModelRequestData) : SamplingParams :=
  {| temperature := 2 # 10;
     max_tokens := 64;
     sampling_stop_token_ids := stop_token_ids req_data |}.

(** [main], from the merge of the limits on. *)
Definition run_request (args : Args) (audio_count : Z)
    (req_data : ModelRequestData) : M unit :=
  let kw := llm_kwargs args req_data in
  _ <~ emit (EvLLM kw);;
  let sampling_params := make_sampling_params req_data in
  let mm_data := build_mm_data req_data audio_count in
  _ <~ lift (assert_ (bool_decide (num_prompts args > 0)) None);;
  let inputs := build_inputs req_data mm_data in
  let inputs := batch_inputs inputs (num_prompts args) in
  let lora_request := build_lora_request req_data (num_prompts args) in
  _ <~ emit (EvGenerate inputs sampling_params lora_request);;
  let outputs := llm_generate kw inputs sampling_params lora_request in
  print_outputs outputs.

Definition main (args : Args) : M unit :=
  let model := model_type args in
  match model_example_map !! model with
  | None =>
      lift (raise (ValueError ("Model type " +:+ model +:+ " is not supported.")))
  | Some build =>
      let audio_count := num_audios args in
      question <~ lift (getitem question_per_audio_count audio_count);;
      _ <~ emit (EvBuilder build question audio_count);;
      req_data <~ lift (call build question audio_count);;
      run_request args audio_count req_data
  end.

(** The [generate] calls recorded in a trace. *)
Definition generate_calls (t : list event)
  : list (gen_inputs * SamplingParams * option (list LoRARequest)) :=
  omap (fun e => match e with
                 | EvGenerate i sp l => Some (i, sp, l)
                 | _ => None
                 end) t.

(** The engine constructions recorded in a trace. *)
Definition engine_constructions (t : list event) : list LLMKwargs :=
  omap (fun e => match e with
                 | EvLLM kw => Some kw
                 | _ => None
                 end) t.

End Script.

(** ** A concrete stand-in for the external collaborators

    Waveforms are lists of samples, the tokenizers render messages by
    concatenation and number characters; the engine answers each input with
    one fixed completion.  Used to run the script on concrete inputs. *)

Definition demo_externals : Externals :=
  {| waveform := list Z;
     rate := Z;
     get_local_path := fun a => "/assets/" +:+ asset_name a +:+ ".ogg";
     audio_and_sample_rate := fun a => ([Z.of_nat (String.length (asset_name a))], 16000);
     Audio_from_file := fun path _ => mkAudio [Z.of_nat (String.length path)] 16000;
     RawAudio := list Z;
     RawAudio_from_audio := fun au => audio_array au;
     encode_chat_completion := fun _ _ chunks =>
       mkTokenized
         (1 :: ((fun c : list Z + string =>
                   match c with
                   | inl _ => 24
                   | inr s => Z.of_nat (String.length s)
                   end) <$> chunks))
         (omap (fun c : list Z + string =>
                  match c with
                  | inl w => Some (mkAudio w 16000)
                  | inr _ => None
                  end) chunks);
     HFTokenizer := string;
     AutoTokenizer_from_pretrained := fun name _ => name;
     apply_chat_template := fun _ msgs _ _ =>
       join ((fun m => "<" +:+ role m +:+ ">" +:+ content m) <$> msgs);
     convert_tokens_to_ids := fun _ tok => Z.of_nat (String.length tok);
     snapshot_download := fun repo _ => "/hub/" +:+ repo;
     os_path_join := fun a b => a +:+ "/" +:+ b |}.

Definition demo_generate
    (kw : LLMKwargs) (inputs : @gen_inputs demo_externals)
    (sp : SamplingParams) (lora : option (list LoRARequest))
  : list (list string) :=
  match inputs with
  | OneInput _ => [["ok"]]
  | Batch l => (fun _ => ["ok"]) <$> l
  end.

(** Command lines to run the script on. *)
Definition args_granite_three : Args :=
  {| model_type := "granite_speech"; num_prompts := 3; num_audios := 1;
     seed := None |}.

Definition args_qwen2_two_audios : Args :=
  {| model_type := "qwen2_audio"; num_prompts := 1; num_audios := 2;
     seed := Some 7 |}.

Definition args_no_prompts : Args :=
  {| model_type := "ultravox"; num_prompts := 0; num_audios := 1;
     seed := None |}.

Definition args_unknown_model : Args :=
  {| model_type := "llava"; num_prompts := 1; num_audios := 1; seed := None |}.

Definition args_five_audios : Args :=
  {| model_type := "ultravox"; num_prompts := 1; num_audios := 5; seed := None |}.

Definition args_whisper_two : Args :=
  {| model_type := "whisper"; num_prompts := 1; num_audios := 2; seed := None |}.

Definition args_voxtral_one : Args :=
  {| model_type := "voxtral"; num_prompts := 2; num_audios := 1; seed := None |}.

(** An engine whose second result has no completion. *)
Definition demo_generate_no_completion
    (kw : LLMKwargs) (inputs : @gen_inputs demo_externals)
    (sp : SamplingParams) (lora : option (list LoRARequest))
  : list (list string) :=
  [["first"]; []; ["third"]].

(** ** Occurrences of a pattern in a string *)

(** The number of positions of [s] at which [pat] starts. *)
Fixpoint count_occurrences (pat s : string) : nat :=
  match s with
  | EmptyString => if String.prefix pat EmptyString then 1 else 0
  | String _ s' =>
      ((if String.prefix pat s then 1 else 0) + count_occurrences pat s')%nat
  end.

(** Exactly one of two optional fields is populated (is not [None]). *)
Definition exactly_one_populated {A B} (a : option A) (b : option B) : Prop :=
  (is_Some a ∧ b = None) ∨ (a = None ∧ is_Some b).

(** The audio counts a builder accepts on the command line: the choices
    of [--num-audios], and one clip only for Whisper. *)
Definition supports (b : builder) (audio_count : Z) : Prop :=
  audio_count ∈ num_audios_choices ∧ (b = Run_whisper → audio_count = 1).

(** The entries of [model_example_map], in the order of the source. *)
Definition registered : list (string * builder) :=
  [ ("voxtral", Run_voxtral);
    ("granite_speech", Run_granite_speech);
    ("minicpmo", Run_minicpmo);
    ("phi4_mm", Run_phi4mm);
    ("phi4_multimodal", Run_phi4_multimodal);
    ("qwen2_audio", Run_qwen2_audio);
    ("qwen2_5_omni", Run_qwen2_5_omni);
    ("ultravox", Run_ultravox);
    ("whisper", Run_whisper) ].

(** The chat templates render some text for a conversation that has a
    message, when asked for the generation prompt. *)
Definition chat_template_renders_text `{Ext : Externals} : Prop :=
  ∀ tok msgs tmpl, msgs ≠ [] → apply_chat_template tok msgs true tmpl ≠ "".

(** The builders whose prompt is the rendering of a chat template. *)
Definition uses_chat_template (b : builder) : Prop :=
  b = Run_minicpmo ∨ b = Run_ultravox.

(** Exactly one of [prompt] and [prompt_token_ids] is populated as [main]
    reads them ([if req_data.prompt:]): a prompt that is a non-empty string
    and no token ids, or no prompt and token ids. *)
Definition exactly_one_usable `{Ext : Externals} (r : ModelRequestData) : Prop :=
  (truthy_str (prompt r) = true ∧ prompt_token_ids r = None)
  ∨ (prompt r = None ∧ is_Some (prompt_token_ids r)).

(** An input record carries exactly one of a non-empty [prompt] and
    [prompt_token_ids] that are not [None]. *)
Definition carries_exactly_one_prompt `{Ext : Externals}
    (i : gmap string input_value) : Prop :=
  (∃ p, p ≠ "" ∧ i !! "prompt" = Some (VPrompt p)
        ∧ i !! "prompt_token_ids" = None)
  ∨ (∃ ids, i !! "prompt_token_ids" = Some (VTokenIds (Some ids))
            ∧ i !! "prompt" = None).

(** A request whose multimodal payload is the empty dictionary. *)
Definition request_with_empty_payload : @ModelRequestData demo_externals :=
  {| engine_args :=
       {| model := "Qwen/Qwen2-Audio-7B-Instruct";
          max_model_len := Some 4096;
          max_num_seqs := Some 5;
          limit_mm_per_prompt := Some {[ "audio" := 2 ]};
          config_format := None;
          load_format := None;
          tokenizer_mode := None;
          enforce_eager := None;
          enable_chunked_prefill := None;
          trust_remote_code := None;
          enable_lora := None;
          max_lora_rank := None |};
     prompt := Some "What sport and what nursery rhyme are referenced?";
     prompt_token_ids := None;
     multi_modal_data := Some ∅;
     stop_token_ids := None;
     lora_requests := None |}.

(** Whether the character [c] occurs in [s]. *)
Fixpoint contains_char (c : ascii) (s : string) : bool :=
  match s with
  | EmptyString => false
  | String a s' => if ascii_dec c a then true else contains_char c s'
  end.

(** The input records a [generate] call receives. *)
Definition input_records `{Ext : Externals} (g : gen_inputs)
  : list (gmap string input_value) :=
  match g with
  | OneInput i => [i]
  | Batch l => l
  end.

(** * Properties *)

Section Properties.

Context `{Ext : Externals}.

Variable llm_generate :
  LLMKwargs -> gen_inputs -> SamplingParams -> option (list LoRARequest) ->
  list (list string).

(** *** The registry and the command-line choices *)

Lemma registry_lookup (key : string) (b : builder) :
  model_example_map !! key = Some b ↔ (key, b) ∈ registered.
Proof.
  unfold model_example_map, registered. split.
  - intros H.
    repeat (apply lookup_insert_Some in H as [[<- <-] | [? H]];
            [ set_solver | ]).
    apply lookup_singleton_Some in H as [<- <-]. set_solver.
  - intros H. repeat (apply elem_of_cons in H as [H | H];
                      [ simplify_eq; vm_compute; reflexivity | ]).
    by apply elem_of_nil in H.
Qed.

Lemma choices_cases (n : Z) :
  n ∈ num_audios_choices ↔ n = 0 ∨ n = 1 ∨ n = 2.
Proof.
  unfold num_audios_choices.
  rewrite !elem_of_cons, elem_of_nil. tauto.
Qed.

Lemma question_of_choice (n : Z) :
  n ∈ num_audios_choices →
  ∃ q, getitem question_per_audio_count n = ok q.
Proof.
  intros H. apply choices_cases in H as [-> | [-> | ->]];
    eexists; vm_compute; reflexivity.
Qed.

(** *** Traces *)

Lemma generate_calls_app (t1 t2 : list event) :
  generate_calls (t1 ++ t2) = generate_calls t1 ++ generate_calls t2.
Proof. unfold generate_calls. apply omap_app. Qed.

Lemma generate_calls_prints (ps : list string) :
  generate_calls (EvPrint <$> ps) = [].
Proof. induction ps as [| p ps IH]; [done | exact IH]. Qed.

Lemma print_outputs_trace (outs : list (list string)) (t : list event) :
  ∃ ps, fst (print_outputs outs t) = t ++ (EvPrint <$> ps).
Proof.
  revert t. induction outs as [| o outs IH]; intros t.
  - exists []. simpl. by rewrite app_nil_r.
  - simpl. unfold mbind, lift, emit.
    destruct (index o 0) as [e | txt].
    + exists []. simpl. by rewrite app_nil_r.
    + simpl. destruct (IH (t ++ [EvPrint txt])) as [ps Hps].
      exists (txt :: ps). rewrite Hps, <- app_assoc. reflexivity.
Qed.

Lemma run_request_rejects (args : Args) (n : Z) (req : ModelRequestData)
    (t : list event) :
  num_prompts args ≤ 0 →
  run_request llm_generate args n req t
  = (t ++ [EvLLM (llm_kwargs args req)], raise (AssertionError None)).
Proof.
  intros Hle. unfold run_request, mbind, emit, lift, assert_.
  rewrite bool_decide_eq_false_2 by lia. reflexivity.
Qed.

Lemma run_request_generates (args : Args) (n : Z) (req : ModelRequestData)
    (t : list event) :
  num_prompts args > 0 →
  ∃ ps,
    fst (run_request llm_generate args n req t)
    = t ++ [EvLLM (llm_kwargs args req);
            EvGenerate
              (batch_inputs (build_inputs req (build_mm_data req n))
                            (num_prompts args))
              (make_sampling_params req)
              (build_lora_request req (num_prompts args))]
        ++ (EvPrint <$> ps).
Proof.
  intros Hgt. unfold run_request, mbind, emit, lift, assert_.
  rewrite bool_decide_eq_true_2 by lia. simpl.
  match goal with
  | |- context [print_outputs ?o ?t'] =>
      destruct (print_outputs_trace o t') as [ps Hps]; exists ps; rewrite Hps
  end.
  rewrite <- !app_assoc. reflexivity.
Qed.

Lemma main_calls_builder (args : Args) (b : builder) (q : string)
    (req : ModelRequestData) :
  model_example_map !! model_type args = Some b →
  getitem question_per_audio_count (num_audios args) = ok q →
  call b q (num_audios args) = ok req →
  main llm_generate args []
  = run_request llm_generate args (num_audios args) req
      [EvBuilder b q (num_audios args)].
Proof.
  intros Hb Hq Hreq. unfold main. rewrite Hb.
  unfold mbind, lift, emit. rewrite Hq. simpl. rewrite Hreq. reflexivity.
Qed.

(** Whatever happens, [main] issues at most the one [generate] call that
    [run_request] makes, and none when [num_prompts] is not positive. *)
Lemma main_generate_calls (args : Args) :
  generate_calls (fst (main llm_generate args [])) ≠ [] →
  num_prompts args > 0.
Proof.
  unfold main. destruct (model_example_map !! model_type args) as [b |];
    [| simpl; congruence ].
  unfold mbind at 1, lift at 1.
  destruct (getitem question_per_audio_count (num_audios args)) as [e | q];
    [ simpl; congruence |].
  unfold mbind at 1, emit at 1. simpl.
  unfold mbind at 1, lift at 1.
  destruct (call b q (num_audios args)) as [e | req]; [ simpl; congruence |].
  intros Hcalls. destruct (decide (num_prompts args > 0)) as [| Hle]; [done |].
  rewrite run_request_rejects in Hcalls by lia. simpl in Hcalls. congruence.
Qed.

(** *** The builders *)

(** The only builder that reads [audio_assets] by index returns for the
    audio counts of the command line. *)
Lemma run_voxtral_returns (question : string) (n : Z) :
  n ∈ num_audios_choices →
  ∃ r, run_voxtral question n = ok r
       ∧ prompt r = None
       ∧ ∃ ids, prompt_token_ids r = Some (IdsList ids).
Proof.
  intros Hn. apply choices_cases in Hn as [-> | [-> | ->]];
    (eexists; split; [ reflexivity | split; [ reflexivity | eexists; reflexivity ] ]).
Qed.

(** Whatever a registered builder returns, its adapter list is absent or
    holds an adapter. *)
Lemma registered_lora_requests (b : builder) (question : string) (n : Z)
    (req : ModelRequestData) :
  call b question n = ok req →
  lora_requests req = None ∨ ∃ a, lora_requests req = Some [a].
Proof.
  destruct b; simpl; intros Hcall.
  - unfold run_voxtral in Hcall.
    destruct (comprehension _ _) as [e | loaded]; simpl in Hcall;
      [ discriminate | ].
    injection Hcall as <-. by left.
  - injection Hcall as <-. right. by eexists.
  - injection Hcall as <-. by left.
  - injection Hcall as <-. right. by eexists.
  - injection Hcall as <-. right. by eexists.
  - injection Hcall as <-. by left.
  - injection Hcall as <-. by left.
  - injection Hcall as <-. by left.
  - unfold run_whisper, assert_ in Hcall.
    destruct (bool_decide (n = 1)); simpl in Hcall; [ | discriminate ].
    injection Hcall as <-. by left.
Qed.

(** On an audio count of the command line, a registered builder returns or
    fails an assertion. *)
Lemma registered_builder_outcome (b : builder) (question : string) (n : Z) :
  n ∈ num_audios_choices →
  (∃ req, call b question n = ok req)
  ∨ (∃ msg, call b question n = raise (AssertionError msg)).
Proof.
  intros Hn. destruct b; simpl; try (left; eexists; reflexivity).
  - destruct (run_voxtral_returns question n Hn) as (r & -> & _). left. by eexists.
  - unfold run_whisper, assert_. destruct (bool_decide (n = 1)); simpl.
    + left. by eexists.
    + right. by eexists.
Qed.

(** Every registered builder declares the limit [{"audio": audio_count}]. *)
Lemma registered_declared_limits (b : builder) (question : string) (n : Z)
    (req : ModelRequestData) :
  call b question n = ok req →
  limit_mm_per_prompt (engine_args req) = Some {[ "audio" := n ]}.
Proof.
  destruct b; simpl; intros Hcall;
    try (injection Hcall as <-; reflexivity).
  - unfold run_voxtral in Hcall.
    destruct (comprehension _ _) as [e | loaded]; simpl in Hcall;
      [ discriminate | ].
    injection Hcall as <-. reflexivity.
  - unfold run_whisper, assert_ in Hcall.
    destruct (bool_decide (n = 1)); simpl in Hcall; [ | discriminate ].
    injection Hcall as <-. reflexivity.
Qed.

(** A request with exactly one usable prompt field gives an input record
    with exactly one prompt entry. *)
Lemma usable_request_carries_one_prompt (r : ModelRequestData)
    (mm : mm_payload) :
  exactly_one_usable r → carries_exactly_one_prompt (build_inputs r mm).
Proof.
  unfold build_inputs. intros [[Ht Hids] | [Hp [ids Hids]]].
  - destruct (prompt r) as [p |]; [ | discriminate ]. rewrite Ht.
    left. exists p. split; [ | split ].
    + intros ->. discriminate.
    + apply lookup_insert_eq.
    + by rewrite lookup_insert_ne, lookup_singleton_ne.
  - rewrite Hp, Hids. right. exists ids. split.
    + apply lookup_insert_eq.
    + by rewrite lookup_insert_ne, lookup_singleton_ne.
Qed.

Lemma truthy_rendering (s : string) : s ≠ "" → truthy_str (Some s) = true.
Proof. intros Hs. destruct s; [ done | reflexivity ]. Qed.

(** C1: the registered keys are the nine of [registered]; the builder of
    each, called with an audio count it supports (0, 1 or 2; only 1 for
    Whisper), returns a request in which exactly one of [prompt] and
    [prompt_token_ids] is populated, never both, never neither: one is not
    [None] and the other is; moreover the prompt, when it is the one, is a
    non-empty string (for [minicpmo] and [ultravox], whose prompt is what
    the chat template renders, as long as the template renders some text),
    so that the input record [main] builds from the request carries either
    a non-empty [prompt] or [prompt_token_ids] that are not [None]. *)
Theorem builders_populate_exactly_one_prompt
    (key : string) (b : builder) (question : string) (n : Z) :
  model_example_map !! key = Some b →
  supports b n →
  (key, b) ∈ registered
  ∧ ∃ r, call b question n = ok r
         ∧ exactly_one_populated (prompt r) (prompt_token_ids r)
         ∧ ((uses_chat_template b → chat_template_renders_text) →
            exactly_one_usable r
            ∧ ∀ mm, carries_exactly_one_prompt (build_inputs r mm)).
Proof.
  intros Hkey [Hn Hw]. split; [ by apply registry_lookup | ].
  clear Hkey.
  assert (Hprompt : ∀ r : ModelRequestData,
            prompt_token_ids r = None →
            is_Some (prompt r) →
            ((uses_chat_template b → chat_template_renders_text) →
             truthy_str (prompt r) = true) →
            exactly_one_populated (prompt r) (prompt_token_ids r)
            ∧ ((uses_chat_template b → chat_template_renders_text) →
               exactly_one_usable r
               ∧ ∀ mm, carries_exactly_one_prompt (build_inputs r mm))).
  { intros r Hids Hp Ht. split; [ by left | ]. intros Hrender.
    assert (Hu : exactly_one_usable r) by (left; auto).
    split; [ exact Hu | ]. intros mm.
    by apply usable_request_carries_one_prompt. }
  destruct b; simpl.
  - destruct (run_voxtral_returns question n Hn) as (r & -> & Hp & ids & Hids).
    exists r. split; [ done | ]. split; [ right; by rewrite Hp, Hids | ].
    intros _. assert (Hu : exactly_one_usable r).
    { right. split; [ exact Hp | by rewrite Hids ]. }
    split; [ exact Hu | ]. intros mm.
    by apply usable_request_carries_one_prompt.
  - eexists; split; [ reflexivity | ]. by apply Hprompt.
  - eexists; split; [ reflexivity | ].
    apply Hprompt; [ reflexivity | by eexists | ].
    intros Hrender. simpl.
    apply truthy_rendering, (Hrender (or_introl eq_refl)). discriminate.
  - eexists; split; [ reflexivity | ]. by apply Hprompt.
  - eexists; split; [ reflexivity | ]. by apply Hprompt.
  - eexists; split; [ reflexivity | ]. by apply Hprompt.
  - eexists; split; [ reflexivity | ]. by apply Hprompt.
  - eexists; split; [ reflexivity | ].
    apply Hprompt; [ reflexivity | by eexists | ].
    intros Hrender. simpl.
    apply truthy_rendering, (Hrender (or_intror eq_refl)). discriminate.
  - rewrite (Hw eq_refl).
    eexists; split; [ reflexivity | ]. by apply Hprompt.
Qed.

(** C3: the Whisper builder fails with its assertion for every audio count
    other than 1, and returns for the count 1. *)
Theorem whisper_accepts_exactly_one_audio (question : string) (n : Z) :
  (n ≠ 1 →
   run_whisper question n
   = raise (AssertionError
              (Some "Whisper only support single audio input per prompt")))
  ∧ (∃ r, run_whisper question 1 = ok r).
Proof.
  split.
  - intros Hn. unfold run_whisper, assert_.
    rewrite bool_decide_eq_false_2 by done. reflexivity.
  - eexists. reflexivity.
Qed.

(** C5: selecting [whisper] with one audio clip calls [run_whisper], which
    returns the prompt [<|startoftranscript|>] with [max_model_len=448],
    [max_num_seqs=5] and [limit_mm_per_prompt={"audio": 1}]. *)
Theorem whisper_request (question : string) :
  model_example_map !! "whisper" = Some Run_whisper
  ∧ ∃ r, call Run_whisper question 1 = ok r
         ∧ prompt r = Some "<|startoftranscript|>"
         ∧ prompt_token_ids r = None
         ∧ max_model_len (engine_args r) = Some 448
         ∧ max_num_seqs (engine_args r) = Some 5
         ∧ limit_mm_per_prompt (engine_args r) = Some {[ "audio" := 1 ]}.
Proof.
  split; [ reflexivity | ].
  eexists. repeat split; reflexivity.
Qed.

(** C6: selecting [qwen2_audio] with two audio clips calls
    [run_qwen2_audio] on the two-audio question; the prompt it returns has
    exactly two occurrences of the placeholder
    [<|audio_bos|><|AUDIO|><|audio_eos|>], the first on the line labelled
    [Audio 1:] and the second on the line labelled [Audio 2:], and the
    question text starts right after these two lines. *)
Theorem qwen2_audio_two_audio_prompt :
  let question := "What sport and what nursery rhyme are referenced?" in
  model_example_map !! "qwen2_audio" = Some Run_qwen2_audio
  ∧ getitem question_per_audio_count 2 = ok question
  ∧ ∃ r p,
      call Run_qwen2_audio question 2 = ok r
      ∧ prompt r = Some p
      ∧ count_occurrences qwen_audio_block p = 2%nat
      ∧ count_occurrences ("Audio 1: " +:+ qwen_audio_block) p = 1%nat
      ∧ count_occurrences ("Audio 2: " +:+ qwen_audio_block) p = 1%nat
      ∧ p = "<|im_start|>system" +:+ nl
            +:+ "You are a helpful assistant.<|im_end|>" +:+ nl
            +:+ "<|im_start|>user" +:+ nl
            +:+ "Audio 1: " +:+ qwen_audio_block +:+ nl
            +:+ "Audio 2: " +:+ qwen_audio_block +:+ nl
            +:+ question
            +:+ "<|im_end|>" +:+ nl +:+ "<|im_start|>assistant" +:+ nl.
Proof.
  intros question. split; [ reflexivity | ]. split; [ reflexivity | ].
  eexists. eexists. split; [ reflexivity | ]. split; [ reflexivity | ].
  repeat split; vm_compute; reflexivity.
Qed.

(** C8 (the code departs from it): the one builder that populates
    [prompt_token_ids], [run_voxtral], stores the flat list of token ids the
    tokenizer returned, not a mapping from channel names to lists. *)
Theorem voxtral_token_ids_are_a_bare_list :
  let question := "What is recited in the audio?" in
  ∃ r ids,
    call Run_voxtral question 1 = ok r
    ∧ prompt_token_ids r = Some (IdsList ids)
    ∧ is_mapping (IdsList ids) = false
    ∧ ∀ m, prompt_token_ids r ≠ Some (IdsMapping m).
Proof.
  intros question. eexists. eexists.
  split; [ reflexivity | ]. split; [ reflexivity | ]. split; [ reflexivity | ].
  intros m. simpl. discriminate.
Qed.

(** *** The runner *)

Lemma engine_constructions_prints (ps : list string) :
  engine_constructions (EvPrint <$> ps) = [].
Proof. induction ps as [| p ps IH]; [done | exact IH]. Qed.

(** After a builder returned, [main] constructs the engine once, with the
    keywords [llm_kwargs] computes. *)
Lemma main_engine_constructions (args : Args) (b : builder) (q : string)
    (req : ModelRequestData) :
  model_example_map !! model_type args = Some b →
  getitem question_per_audio_count (num_audios args) = ok q →
  call b q (num_audios args) = ok req →
  engine_constructions (fst (main llm_generate args []))
  = [llm_kwargs args req].
Proof.
  intros Hb Hq Hreq. rewrite (main_calls_builder _ _ _ _ Hb Hq Hreq).
  destruct (decide (num_prompts args > 0)) as [Hgt | Hle].
  - destruct (run_request_generates args (num_audios args) req
                [EvBuilder b q (num_audios args)] Hgt) as [ps ->].
    unfold engine_constructions. rewrite !omap_app. simpl.
    fold (engine_constructions (EvPrint <$> ps)).
    by rewrite engine_constructions_prints.
  - rewrite run_request_rejects by lia. reflexivity.
Qed.

(** With a positive [num_prompts], [main] issues exactly one [generate]
    call after the builder returned. *)
Lemma main_generate_call (args : Args) (b : builder) (q : string)
    (req : ModelRequestData) :
  model_example_map !! model_type args = Some b →
  getitem question_per_audio_count (num_audios args) = ok q →
  call b q (num_audios args) = ok req →
  num_prompts args > 0 →
  generate_calls (fst (main llm_generate args []))
  = [(batch_inputs (build_inputs req (build_mm_data req (num_audios args)))
                   (num_prompts args),
      make_sampling_params req,
      build_lora_request req (num_prompts args))].
Proof.
  intros Hb Hq Hreq Hgt. rewrite (main_calls_builder _ _ _ _ Hb Hq Hreq).
  destruct (run_request_generates args (num_audios args) req
              [EvBuilder b q (num_audios args)] Hgt) as [ps ->].
  rewrite !generate_calls_app, generate_calls_prints. reflexivity.
Qed.

Lemma merge_declared_audio (N : Z) :
  merge_limits (Some {[ "audio" := N ]})
  = {[ "image" := 0; "video" := 0; "audio" := N ]}.
Proof.
  unfold merge_limits, or_empty, truthy_dict, dict_or, default_limits.
  rewrite dom_singleton_L.
  rewrite bool_decide_eq_false_2 by (intros H; by apply non_empty_singleton_L in H).
  simpl. apply map_eq. intros k. rewrite lookup_union.
  destruct (decide (k = "audio")) as [-> | Ha]; [ reflexivity | ].
  rewrite lookup_singleton_ne by done.
  destruct (decide (k = "image")) as [-> | Hi]; [ reflexivity | ].
  destruct (decide (k = "video")) as [-> | Hv]; [ reflexivity | ].
  by rewrite !lookup_insert_ne, !lookup_singleton_ne.
Qed.

(** C2: merging the default limits [{image: 0, video: 0, audio: 0}] with a
    builder's [{audio: N}] gives [{image: 0, video: 0, audio: N}], and with
    an absent map gives the all-zero map; the merged map is the
    [limit_mm_per_prompt] with which [main] constructs the engine. *)
Theorem merged_limits_keep_other_modalities_disabled :
  (∀ N : Z,
     merge_limits (Some {[ "audio" := N ]})
     = {[ "image" := 0; "video" := 0; "audio" := N ]})
  ∧ merge_limits None = {[ "image" := 0; "video" := 0; "audio" := 0 ]}
  ∧ ∀ (args : Args) (b : builder) (q : string) (req : ModelRequestData),
      model_example_map !! model_type args = Some b →
      getitem question_per_audio_count (num_audios args) = ok q →
      call b q (num_audios args) = ok req →
      ∃ kw,
        engine_constructions (fst (main llm_generate args [])) = [kw]
        ∧ limit_mm_per_prompt (llm_engine_args kw)
          = Some (merge_limits (limit_mm_per_prompt (engine_args req)))
        ∧ limit_mm_per_prompt (llm_engine_args kw)
          = Some {[ "image" := 0; "video" := 0; "audio" := num_audios args ]}.
Proof.
  split; [ exact merge_declared_audio | ]. split.
  - unfold merge_limits, or_empty, dict_or, default_limits.
    apply (left_id_L ∅ (∪)).
  - intros args b q req Hb Hq Hreq. exists (llm_kwargs args req).
    split; [ by eapply main_engine_constructions | ].
    split; [ reflexivity | ]. simpl.
    rewrite (registered_declared_limits _ _ _ _ Hreq).
    by rewrite merge_declared_audio.
Qed.

(** C4: with [--num-prompts=3], after the chosen builder returned its
    request, [generate] receives a list of exactly three copies of the one
    input record, and as [lora_request] the builder's adapter list repeated
    three times, or [None] when the builder gave no adapter list. *)
Theorem three_prompts_repeat_inputs_and_adapters
    (args : Args) (b : builder) (q : string) (req : ModelRequestData) :
  num_prompts args = 3 →
  model_example_map !! model_type args = Some b →
  getitem question_per_audio_count (num_audios args) = ok q →
  call b q (num_audios args) = ok req →
  let input := build_inputs req (build_mm_data req (num_audios args)) in
  ∃ sp lora,
    generate_calls (fst (main llm_generate args []))
    = [(Batch [input; input; input], sp, lora)]
    ∧ (∀ l, lora_requests req = Some l → lora = Some (l ++ l ++ l))
    ∧ (lora_requests req = None → lora = None).
Proof.
  intros Hn Hb Hq Hreq input.
  exists (make_sampling_params req), (build_lora_request req 3).
  split; [ | split ].
  - rewrite (main_generate_call _ _ _ _ Hb Hq Hreq) by lia.
    rewrite Hn. reflexivity.
  - intros l Hl. unfold build_lora_request. rewrite Hl.
    destruct (registered_lora_requests _ _ _ _ Hreq) as [Hnone | [a Ha]];
      [ congruence | ].
    rewrite Hl in Ha. injection Ha as ->. reflexivity.
  - intros Hl. unfold build_lora_request. by rewrite Hl.
Qed.

(** C7: a model key outside the registry makes [main] raise [ValueError]
    with nothing done: no builder called, no engine constructed, no
    generation; a registered key (with an audio count among the choices of
    the command line) makes [main] call the builder registered under it. *)
Theorem unknown_model_rejected_before_any_work (args : Args) :
  (model_example_map !! model_type args = None →
   main llm_generate args []
   = ([], raise (ValueError ("Model type " +:+ model_type args
                               +:+ " is not supported."))))
  ∧ (∀ b, model_example_map !! model_type args = Some b →
          num_audios args ∈ num_audios_choices →
          ∃ q rest,
            question_per_audio_count !! num_audios args = Some q
            ∧ fst (main llm_generate args [])
              = EvBuilder b q (num_audios args) :: rest).
Proof.
  split.
  - intros Hnone. unfold main. rewrite Hnone. reflexivity.
  - intros b Hb Hn. destruct (question_of_choice _ Hn) as [q Hq].
    exists q. unfold main. rewrite Hb. unfold mbind at 1, lift at 1.
    rewrite Hq. unfold getitem in Hq.
    destruct (question_per_audio_count !! num_audios args) as [q' |] eqn:Hq';
      [ | discriminate ].
    injection Hq as ->.
    unfold mbind at 1, emit at 1. simpl.
    unfold mbind at 1, lift at 1.
    destruct (call b q (num_audios args)) as [e | req].
    + eexists. split; reflexivity.
    + destruct (decide (num_prompts args > 0)) as [Hgt | Hle].
      * destruct (run_request_generates args (num_audios args) req
                    [EvBuilder b q (num_audios args)] Hgt) as [ps ->].
        eexists. split; reflexivity.
      * rewrite run_request_rejects by lia. eexists. split; reflexivity.
Qed.

(** C9: with [num_prompts <= 0], [main] fails without any [generate]
    call; on a command line the parser admits (a registered key, an audio
    count among the choices) the failure is an assertion error, and it is
    the assertion on [num_prompts] once the builder has returned; a
    [generate] call is issued only when [num_prompts > 0]. *)
Theorem nonpositive_num_prompts_never_generates (args : Args) :
  (num_prompts args ≤ 0 →
   (∃ e, snd (main llm_generate args []) = raise e)
   ∧ generate_calls (fst (main llm_generate args [])) = []
   ∧ (∀ b, model_example_map !! model_type args = Some b →
           num_audios args ∈ num_audios_choices →
           ∃ msg, snd (main llm_generate args [])
                  = raise (AssertionError msg))
   ∧ ∀ b q req,
       model_example_map !! model_type args = Some b →
       getitem question_per_audio_count (num_audios args) = ok q →
       call b q (num_audios args) = ok req →
       snd (main llm_generate args []) = raise (AssertionError None))
  ∧ (generate_calls (fst (main llm_generate args [])) ≠ [] →
     num_prompts args > 0).
Proof.
  split; [ | apply main_generate_calls ].
  intros Hle. split; [ | split; [ | split ] ].
  - unfold main. destruct (model_example_map !! model_type args) as [b |];
      [ | by eexists ].
    unfold mbind at 1, lift at 1.
    destruct (getitem question_per_audio_count (num_audios args)) as [e | q];
      [ by eexists | ].
    unfold mbind at 1, emit at 1. simpl.
    unfold mbind at 1, lift at 1.
    destruct (call b q (num_audios args)) as [e | req]; [ by eexists | ].
    rewrite run_request_rejects by lia. by eexists.
  - destruct (generate_calls (fst (main llm_generate args []))) eqn:Hcalls;
      [ done | ].
    assert (num_prompts args > 0); [ | lia ].
    apply main_generate_calls. by rewrite Hcalls.
  - intros b Hb Hn. destruct (question_of_choice _ Hn) as [q Hq].
    destruct (registered_builder_outcome b q _ Hn) as [[req Hreq] | [msg Hmsg]].
    + exists None. rewrite (main_calls_builder _ _ _ _ Hb Hq Hreq).
      by rewrite run_request_rejects by lia.
    + exists msg. unfold main. rewrite Hb. unfold mbind, lift, emit.
      rewrite Hq. simpl. by rewrite Hmsg.
  - intros b q req Hb Hq Hreq.
    rewrite (main_calls_builder _ _ _ _ Hb Hq Hreq).
    by rewrite run_request_rejects by lia.
Qed.

(** C10: whatever request the builder returned, with a positive
    [num_prompts] the runner issues one [generate] call whose input
    records all have a [multi_modal_data] entry; when the request has no
    multimodal payload ([None], or the empty dictionary), that entry is
    [{"audio": [...]}] with the first [audio_count] bundled assets in order
    if [audio_count > 0], and the empty dictionary if [audio_count] is 0.
    This is the [generate] call of [main] when the request is the one the
    chosen builder returned. *)
Theorem default_multimodal_payload
    (args : Args) (n : Z) (req : ModelRequestData) (t : list event) :
  num_prompts args > 0 →
  ∃ inputs sp lora mm_data,
    generate_calls (fst (run_request llm_generate args n req t))
    = generate_calls t ++ [(inputs, sp, lora)]
    ∧ input_records inputs ≠ []
    ∧ (∀ i, i ∈ input_records inputs →
            i !! "multi_modal_data" = Some (VMultiModal mm_data))
    ∧ (multi_modal_data req = None ∨ multi_modal_data req = Some ∅ →
       (n > 0 →
        mm_data = {[ "audio" := audio_and_sample_rate
                                  <$> take (Z.to_nat n) audio_assets ]})
       ∧ (n = 0 → mm_data = ∅))
    ∧ (∀ b q,
         model_example_map !! model_type args = Some b →
         getitem question_per_audio_count (num_audios args) = ok q →
         call b q (num_audios args) = ok req →
         n = num_audios args →
         generate_calls (fst (main llm_generate args []))
         = [(inputs, sp, lora)]).
Proof.
  intros Hgt.
  eexists _, _, _, (build_mm_data req n).
  split.
  { destruct (run_request_generates args n req t Hgt) as [ps ->].
    rewrite !generate_calls_app, generate_calls_prints.
    rewrite app_nil_r. reflexivity. }
  assert (Hin : ∀ i,
             i ∈ input_records
                   (batch_inputs (build_inputs req (build_mm_data req n))
                                 (num_prompts args)) →
             i = build_inputs req (build_mm_data req n)).
  { intros i. unfold batch_inputs. case_bool_decide; simpl.
    - unfold list_mul. generalize (Z.to_nat (num_prompts args)) as k.
      induction k as [| k IH]; simpl; [ by intros ?%elem_of_nil | ].
      intros [-> | ?]%elem_of_cons; [ done | by apply IH ].
    - by intros ->%list_elem_of_singleton. }
  split; [ | split; [ | split ] ].
  - unfold batch_inputs. case_bool_decide; simpl; [ | done ].
    unfold list_mul. destruct (Z.to_nat (num_prompts args)) eqn:Hk; [ lia | done ].
  - intros i Hi. rewrite (Hin i Hi). unfold build_inputs.
    destruct (prompt req) as [p |]; [ destruct (truthy_str (Some p)) | ];
      by rewrite lookup_insert_ne, lookup_singleton_eq.
  - intros Hfalsy. unfold build_mm_data.
    assert (Hdef : match multi_modal_data req with
                   | Some d => if truthy_dict (Some d) then d
                               else default_mm_data n
                   | None => default_mm_data n
                   end = default_mm_data n).
    { destruct Hfalsy as [-> | ->]; [ done | ].
      unfold truthy_dict, mm_payload.
      by rewrite bool_decide_eq_true_2 by apply dom_empty_L. }
    rewrite Hdef. unfold default_mm_data, slice_to. split.
    + intros Hpos. rewrite bool_decide_eq_true_2 by done.
      by rewrite bool_decide_eq_false_2 by lia.
    + intros ->. reflexivity.
  - intros b q Hb Hq Hreq ->.
    by apply (main_generate_call _ _ _ _ Hb Hq Hreq).
Qed.

End Properties.

(** * The script run on concrete command lines *)

Lemma builders_populate_exactly_one_prompt_witness :
  model_example_map !! "ultravox" = Some Run_ultravox
  ∧ supports Run_ultravox 1
  ∧ chat_template_renders_text (Ext := demo_externals)
  ∧ ∃ r, call (Ext := demo_externals) Run_ultravox
           "What is recited in the audio?" 1 = ok r
         ∧ exactly_one_populated (prompt r) (prompt_token_ids r)
         ∧ exactly_one_usable r
         ∧ ∀ mm, carries_exactly_one_prompt (build_inputs r mm).
Proof.
  assert (Hs : supports Run_ultravox 1).
  { split; [ apply choices_cases; auto | discriminate ]. }
  assert (Hrender : chat_template_renders_text (Ext := demo_externals)).
  { intros tok msgs tmpl Hne. destruct msgs as [| m msgs]; [ done | ].
    intros H. vm_compute in H. discriminate H. }
  split; [ reflexivity | ]. split; [ exact Hs | ]. split; [ exact Hrender | ].
  destruct (proj2 (builders_populate_exactly_one_prompt (Ext := demo_externals)
                     "ultravox" Run_ultravox "What is recited in the audio?" 1
                     eq_refl Hs))
    as (r & Hr & Hone & Husable).
  exists r. split; [ exact Hr | ]. split; [ exact Hone | ].
  exact (Husable (fun _ => Hrender)).
Defined.

Lemma whisper_accepts_exactly_one_audio_witness :
  2 ≠ 1
  ∧ run_whisper (Ext := demo_externals)
      "What sport and what nursery rhyme are referenced?" 2
    = raise (AssertionError
               (Some "Whisper only support single audio input per prompt")).
Proof.
  split; [ lia | ].
  apply (proj1 (whisper_accepts_exactly_one_audio (Ext := demo_externals)
                  "What sport and what nursery rhyme are referenced?" 2)).
  lia.
Defined.

Lemma merged_limits_keep_other_modalities_disabled_witness :
  ∃ req kw,
    model_example_map !! model_type args_qwen2_two_audios = Some Run_qwen2_audio
    ∧ getitem question_per_audio_count (num_audios args_qwen2_two_audios)
      = ok "What sport and what nursery rhyme are referenced?"
    ∧ call (Ext := demo_externals) Run_qwen2_audio
        "What sport and what nursery rhyme are referenced?" 2 = ok req
    ∧ engine_constructions
        (fst (main demo_generate args_qwen2_two_audios [])) = [kw]
    ∧ limit_mm_per_prompt (llm_engine_args kw)
      = Some {[ "image" := 0; "video" := 0; "audio" := 2 ]}.
Proof.
  eexists.
  destruct (proj2 (proj2 (merged_limits_keep_other_modalities_disabled
                            (Ext := demo_externals) demo_generate))
              args_qwen2_two_audios Run_qwen2_audio
              "What sport and what nursery rhyme are referenced?" _
              eq_refl eq_refl eq_refl) as (kw & Hkw & _ & Hlim).
  exists kw.
  split; [ reflexivity | ]. split; [ reflexivity | ]. split; [ reflexivity | ].
  split; [ exact Hkw | exact Hlim ].
Defined.

Lemma three_prompts_repeat_inputs_and_adapters_witness :
  ∃ req input sp,
    num_prompts args_granite_three = 3
    ∧ model_example_map !! model_type args_granite_three
      = Some Run_granite_speech
    ∧ getitem question_per_audio_count (num_audios args_granite_three)
      = ok "What is recited in the audio?"
    ∧ call (Ext := demo_externals) Run_granite_speech
        "What is recited in the audio?" 1 = ok req
    ∧ generate_calls (fst (main demo_generate args_granite_three []))
      = [(Batch [input; input; input], sp,
          Some [mkLoRARequest "speech" 1 "ibm-granite/granite-speech-3.3-8b";
                mkLoRARequest "speech" 1 "ibm-granite/granite-speech-3.3-8b";
                mkLoRARequest "speech" 1 "ibm-granite/granite-speech-3.3-8b"])].
Proof.
  eexists.
  destruct (three_prompts_repeat_inputs_and_adapters
              (Ext := demo_externals) demo_generate
              args_granite_three Run_granite_speech
              "What is recited in the audio?" _
              eq_refl eq_refl eq_refl eq_refl) as (sp & lora & Hcalls & Hsome & _).
  eexists. exists sp.
  split; [ reflexivity | ]. split; [ reflexivity | ]. split; [ reflexivity | ].
  split; [ reflexivity | ].
  rewrite Hcalls. rewrite (Hsome _ eq_refl). reflexivity.
Defined.

Lemma unknown_model_rejected_before_any_work_witness :
  model_example_map !! model_type args_unknown_model = None
  ∧ main (Ext := demo_externals) demo_generate args_unknown_model []
    = ([], raise (ValueError "Model type llava is not supported.")).
Proof.
  split; [ reflexivity | ].
  apply (proj1 (unknown_model_rejected_before_any_work
                  (Ext := demo_externals) demo_generate args_unknown_model)).
  reflexivity.
Defined.

Lemma nonpositive_num_prompts_never_generates_witness :
  num_prompts args_no_prompts ≤ 0
  ∧ (∃ e, snd (main (Ext := demo_externals) demo_generate args_no_prompts [])
          = raise e)
  ∧ generate_calls
      (fst (main (Ext := demo_externals) demo_generate args_no_prompts []))
    = [].
Proof.
  assert (Hle : num_prompts args_no_prompts ≤ 0) by (simpl; lia).
  split; [ exact Hle | ].
  destruct (proj1 (nonpositive_num_prompts_never_generates
                     (Ext := demo_externals) demo_generate args_no_prompts)
              Hle) as (He & Hcalls & _).
  split; [ exact He | exact Hcalls ].
Defined.

Lemma default_multimodal_payload_witness :
  ∃ inputs sp lora,
    num_prompts args_qwen2_two_audios > 0
    ∧ multi_modal_data request_with_empty_payload = Some ∅
    ∧ generate_calls
        (fst (run_request demo_generate args_qwen2_two_audios 2
                request_with_empty_payload []))
      = [(inputs, sp, lora)]
    ∧ input_records inputs ≠ []
    ∧ ∀ i, i ∈ input_records inputs →
           i !! "multi_modal_data"
           = Some (VMultiModal
                     {[ "audio" := audio_and_sample_rate (Externals := demo_externals)
                                     <$> audio_assets ]}).
Proof.
  assert (Hgt : num_prompts args_qwen2_two_audios > 0) by (simpl; lia).
  destruct (default_multimodal_payload
              (Ext := demo_externals) demo_generate
              args_qwen2_two_audios 2 request_with_empty_payload [] Hgt)
    as (inputs & sp & lora & mm & Hcalls & Hne & Hrec & Hdef & _).
  exists inputs, sp, lora.
  split; [ exact Hgt | ]. split; [ reflexivity | ].
  split; [ exact Hcalls | ]. split; [ exact Hne | ].
  intros i Hi. rewrite (Hrec i Hi).
  destruct (Hdef (or_intror eq_refl)) as [Hpos _].
  rewrite Hpos by lia. reflexivity.
Defined.

(** C7 needs its restriction on the audio count: with a registered key and
    five audio clips [main] raises [KeyError] at the question lookup and
    calls no builder. *)
Lemma registered_key_five_audios_calls_no_builder :
  model_example_map !! model_type args_five_audios = Some Run_ultravox
  ∧ main (Ext := demo_externals) demo_generate args_five_audios []
    = ([], raise KeyError)
  ∧ ¬ ∃ q rest,
        fst (main (Ext := demo_externals) demo_generate args_five_audios [])
        = EvBuilder Run_ultravox q (num_audios args_five_audios) :: rest.
Proof.
  split; [ reflexivity | ]. split; [ reflexivity | ].
  intros (q & rest & H). discriminate H.
Qed.

(** * Further properties of the builders and of the runner *)

Section Placeholders.

(** *** Counting placeholders in a formatted prompt *)

(** Text without the first character of a pattern holds no occurrence of
    it, whatever follows. *)
Lemma count_occurrences_skip (c : ascii) (pat q rest : string) :
  contains_char c q = false →
  count_occurrences (String c pat) (q +:+ rest)
  = count_occurrences (String c pat) rest.
Proof.
  induction q as [| a q IH]; intros Hq; [ reflexivity | ].
  simpl in Hq. destruct (ascii_dec c a) as [| Hne] eqn:Hdec; [ discriminate | ].
  change (String a q +:+ rest) with (String a (q +:+ rest)).
  cbn [count_occurrences String.prefix]. rewrite Hdec. simpl. by apply IH.
Qed.

Lemma count_occurrences_absent (c : ascii) (pat q : string) :
  contains_char c q = false →
  count_occurrences (String c pat) q = 0%nat.
Proof.
  induction q as [| a q IH]; intros Hq; [ reflexivity | ].
  simpl in Hq. destruct (ascii_dec c a) as [| Hne] eqn:Hdec; [ discriminate | ].
  cbn [count_occurrences String.prefix]. rewrite Hdec. simpl. by apply IH.
Qed.

Lemma str_append_assoc (a b c : string) : (a +:+ b) +:+ c = a +:+ (b +:+ c).
Proof.
  induction a as [| x a IH]; [ reflexivity | ].
  change (String x ((a +:+ b) +:+ c) = String x (a +:+ (b +:+ c))).
  by rewrite IH.
Qed.

(** Copies of a pattern that cannot overlap itself are counted one each. *)
Lemma count_occurrences_rep (pat unit_ : string) (k : nat) (rest : string) :
  (∀ s, count_occurrences pat (unit_ +:+ s) = S (count_occurrences pat s)) →
  count_occurrences pat (str_rep unit_ k +:+ rest)
  = (k + count_occurrences pat rest)%nat.
Proof.
  intros Hstep. induction k as [| k IH]; [ reflexivity | ].
  cbn [str_rep]. rewrite str_append_assoc, Hstep, IH. reflexivity.
Qed.

Lemma count_audio_tag_step (rest : string) :
  count_occurrences "<|audio|>" ("<|audio|>" +:+ rest)
  = S (count_occurrences "<|audio|>" rest).
Proof. destruct rest; reflexivity. Qed.

Lemma count_audio_tag_line_step (rest : string) :
  count_occurrences "<|audio|>" (("<|audio|>" +:+ nl) +:+ rest)
  = S (count_occurrences "<|audio|>" rest).
Proof. reflexivity. Qed.

Lemma count_minicpmo_tag_step (rest : string) :
  count_occurrences "(<audio>./</audio>)" ("(<audio>./</audio>)" +:+ rest)
  = S (count_occurrences "(<audio>./</audio>)" rest).
Proof. destruct rest; reflexivity. Qed.

Lemma count_qwen_block_step (rest : string) :
  count_occurrences qwen_audio_block ((qwen_audio_block +:+ nl) +:+ rest)
  = S (count_occurrences qwen_audio_block rest).
Proof. reflexivity. Qed.

(** [range(n)] has [max(n, 0)] elements. *)
Lemma length_range (n : Z) : length (range n) = Z.to_nat n.
Proof. unfold range. by rewrite length_fmap, length_seq. Qed.

(** Joining equal pieces is repeating the piece. *)
Lemma join_const {A} (s : string) (l : list A) :
  join ((fun _ => s) <$> l) = str_rep s (length l).
Proof.
  induction l as [| a l IH]; [ reflexivity | ].
  change (s +:+ join ((fun _ => s) <$> l) = s +:+ str_rep s (length l)).
  by rewrite IH.
Qed.

(** The decimal rendering of an integer has no [<]. *)
Lemma pretty_N_go_no_lt (x : N) (s : string) :
  contains_char "<" (pretty_N_go x s) = contains_char "<" s.
Proof.
  revert s. induction (N.lt_wf_0 x) as [x _ IH]; intros s.
  assert (x = 0 ∨ 0 < x)%N as [-> | Hpos] by lia.
  - by rewrite pretty_N_go_0.
  - rewrite pretty_N_go_step by done.
    rewrite IH by (by apply N.div_lt).
    unfold pretty_N_char. by repeat case_match.
Qed.

Lemma str_of_int_no_lt (k : Z) : contains_char "<" (str_of_int k) = false.
Proof.
  unfold str_of_int, pretty, pretty_Z.
  assert (Hpos : ∀ p : positive, contains_char "<" (pretty p) = false).
  { intros p. unfold pretty, pretty_positive, pretty, pretty_N.
    case_decide; [ reflexivity | ]. by rewrite pretty_N_go_no_lt. }
  destruct k as [| p | p]; [ reflexivity | apply Hpos | ].
  change (contains_char "<" (pretty p) = false). apply Hpos.
Qed.

(** Joined pieces that each hold the pattern once hold it once per piece. *)
Lemma count_occurrences_join {A} (pat : string) (f : A → string)
    (l : list A) (rest : string) :
  (∀ a s, count_occurrences pat (f a +:+ s) = S (count_occurrences pat s)) →
  count_occurrences pat (join (f <$> l) +:+ rest)
  = (length l + count_occurrences pat rest)%nat.
Proof.
  intros Hstep. induction l as [| a l IH]; [ reflexivity | ].
  change (count_occurrences pat ((f a +:+ join (f <$> l)) +:+ rest)
          = S (length l + count_occurrences pat rest)).
  by rewrite str_append_assoc, Hstep, IH.
Qed.

Lemma count_phi4mm_tag_step (i : Z) (rest : string) :
  count_occurrences "<|audio_"
    (("<|audio_" +:+ str_of_int (i + 1) +:+ "|>") +:+ rest)
  = S (count_occurrences "<|audio_" rest).
Proof.
  rewrite !str_append_assoc.
  transitivity (S (count_occurrences "<|audio_"
                     (str_of_int (i + 1) +:+ "|>" +:+ rest))).
  - generalize (str_of_int (i + 1) +:+ "|>" +:+ rest) as s.
    intros s. destruct s; reflexivity.
  - f_equal. by rewrite (count_occurrences_skip "<" "|audio_" _ _
                           (str_of_int_no_lt (i + 1))).
Qed.

Lemma count_qwen2_audio_line_step (idx : Z) (rest : string) :
  count_occurrences qwen_audio_block
    (("Audio " +:+ str_of_int (idx + 1) +:+ ": " +:+ qwen_audio_block +:+ nl)
     +:+ rest)
  = S (count_occurrences qwen_audio_block rest).
Proof.
  rewrite !str_append_assoc.
  transitivity (count_occurrences qwen_audio_block
                  (str_of_int (idx + 1) +:+ ": " +:+ qwen_audio_block
                   +:+ nl +:+ rest)); [ reflexivity | ].
  unfold qwen_audio_block at 1.
  rewrite (count_occurrences_skip "<" _ _ _ (str_of_int_no_lt (idx + 1))).
  reflexivity.
Qed.

Context `{Ext : Externals}.

(** X1: for a question without [<], the Granite Speech prompt holds exactly
    [max(audio_count, 0)] placeholders [<|audio|>]. *)
Theorem granite_speech_placeholder_count (question : string) (n : Z) :
  contains_char "<" question = false →
  ∃ r p, run_granite_speech question n = ok r
         ∧ prompt r = Some p
         ∧ count_occurrences "<|audio|>" p = Z.to_nat n.
Proof.
  intros Hq. eexists. eexists. split; [ reflexivity | ]. split; [ reflexivity | ].
  unfold str_mul.
  transitivity (count_occurrences "<|audio|>"
                  (str_rep "<|audio|>" (Z.to_nat n) +:+ question
                   +:+ "<|end_of_text|>" +:+ nl
                   +:+ "<|start_of_role|>assistant<|end_of_role|>"));
    [ reflexivity | ].
  rewrite (count_occurrences_rep _ _ _ _ count_audio_tag_step).
  rewrite (count_occurrences_skip "<" "|audio|>" question _ Hq).
  change (Z.to_nat n + 0 = Z.to_nat n)%nat. lia.
Qed.

(** X2: for a question without [<], the Phi-4-multimodal prompt of
    [run_phi4_multimodal] holds exactly [max(audio_count, 0)] placeholders
    [<|audio|>]. *)
Theorem phi4_multimodal_placeholder_count (question : string) (n : Z) :
  contains_char "<" question = false →
  ∃ r p, run_phi4_multimodal question n = ok r
         ∧ prompt r = Some p
         ∧ count_occurrences "<|audio|>" p = Z.to_nat n.
Proof.
  intros Hq. eexists. eexists. split; [ reflexivity | ]. split; [ reflexivity | ].
  unfold str_mul.
  transitivity (count_occurrences "<|audio|>"
                  (str_rep "<|audio|>" (Z.to_nat n) +:+ question
                   +:+ "<|end|><|assistant|>"));
    [ reflexivity | ].
  rewrite (count_occurrences_rep _ _ _ _ count_audio_tag_step).
  rewrite (count_occurrences_skip "<" "|audio|>" question _ Hq).
  change (Z.to_nat n + 0 = Z.to_nat n)%nat. lia.
Qed.

(** X3: for a question without [<], the Qwen2.5-Omni prompt holds exactly
    [max(audio_count, 0)] placeholder blocks
    [<|audio_bos|><|AUDIO|><|audio_eos|>]. *)
Theorem qwen2_5_omni_placeholder_count (question : string) (n : Z) :
  contains_char "<" question = false →
  ∃ r p, run_qwen2_5_omni question n = ok r
         ∧ prompt r = Some p
         ∧ count_occurrences qwen_audio_block p = Z.to_nat n.
Proof.
  intros Hq. eexists. eexists. split; [ reflexivity | ]. split; [ reflexivity | ].
  rewrite (join_const (qwen_audio_block +:+ nl) (range n)), length_range.
  transitivity (count_occurrences qwen_audio_block
                  (str_rep (qwen_audio_block +:+ nl) (Z.to_nat n) +:+ question
                   +:+ "<|im_end|>" +:+ nl +:+ "<|im_start|>assistant" +:+ nl));
    [ reflexivity | ].
  rewrite (count_occurrences_rep _ _ _ _ count_qwen_block_step).
  unfold qwen_audio_block.
  rewrite (count_occurrences_skip "<" _ question _ Hq).
  change (Z.to_nat n + 0 = Z.to_nat n)%nat. lia.
Qed.

(** X4: for a question without [<], the prompt of [run_phi4mm] holds
    exactly [max(audio_count, 0)] numbered placeholders [<|audio_k|>]. *)
Theorem phi4mm_placeholder_count (question : string) (n : Z) :
  contains_char "<" question = false →
  ∃ r p, run_phi4mm question n = ok r
         ∧ prompt r = Some p
         ∧ count_occurrences "<|audio_" p = Z.to_nat n.
Proof.
  intros Hq. eexists. eexists. split; [ reflexivity | ]. split; [ reflexivity | ].
  transitivity
    (count_occurrences "<|audio_"
       (join ((fun i => "<|audio_" +:+ str_of_int (i + 1) +:+ "|>") <$> range n)
        +:+ question +:+ "<|end|><|assistant|>"));
    [ reflexivity | ].
  rewrite (count_occurrences_join _ _ _ _ count_phi4mm_tag_step), length_range.
  rewrite (count_occurrences_skip "<" "|audio_" question _ Hq).
  change (Z.to_nat n + 0 = Z.to_nat n)%nat. lia.
Qed.

(** X5: for a question without [<], the Qwen2-Audio prompt holds exactly
    [max(audio_count, 0)] placeholder blocks
    [<|audio_bos|><|AUDIO|><|audio_eos|>]. *)
Theorem qwen2_audio_placeholder_count (question : string) (n : Z) :
  contains_char "<" question = false →
  ∃ r p, run_qwen2_audio question n = ok r
         ∧ prompt r = Some p
         ∧ count_occurrences qwen_audio_block p = Z.to_nat n.
Proof.
  intros Hq. eexists. eexists. split; [ reflexivity | ]. split; [ reflexivity | ].
  transitivity
    (count_occurrences qwen_audio_block
       (join ((fun idx => "Audio " +:+ str_of_int (idx + 1) +:+ ": "
                          +:+ qwen_audio_block +:+ nl) <$> range n)
        +:+ question +:+ "<|im_end|>" +:+ nl
        +:+ "<|im_start|>assistant" +:+ nl));
    [ reflexivity | ].
  rewrite (count_occurrences_join _ _ _ _ count_qwen2_audio_line_step),
    length_range.
  unfold qwen_audio_block.
  rewrite (count_occurrences_skip "<" _ question _ Hq).
  change (Z.to_nat n + 0 = Z.to_nat n)%nat. lia.
Qed.

(** X6: [run_ultravox] renders, with the model's own chat template and the
    generation prompt, a single user message; for a question without [<]
    its content holds exactly [max(audio_count, 0)] placeholders
    [<|audio|>], before the question. *)
Theorem ultravox_message_placeholder_count (question : string) (n : Z) :
  contains_char "<" question = false →
  ∃ r content,
    run_ultravox question n = ok r
    ∧ prompt r
      = Some (apply_chat_template
                (AutoTokenizer_from_pretrained
                   "fixie-ai/ultravox-v0_5-llama-3_2-1b" false)
                [mkMessage "user" content] true None)
    ∧ count_occurrences "<|audio|>" content = Z.to_nat n
    ∧ ∃ head, content = head +:+ question.
Proof.
  intros Hq. eexists. eexists. split; [ reflexivity | ]. split; [ reflexivity | ].
  split; [ | by eexists ]. unfold str_mul.
  rewrite (count_occurrences_rep _ _ _ _ count_audio_tag_line_step).
  rewrite (count_occurrences_absent "<" "|audio|>" question Hq). lia.
Qed.

(** X7: [run_minicpmo] renders a single user message with its own chat
    template; for a question without [(] the content holds exactly
    [max(audio_count, 0)] placeholders [(<audio>./</audio>)], then a newline
    and the question; the stop tokens are the ids of [<|im_end|>] and
    [<|endoftext|>]. *)
Theorem minicpmo_message_placeholder_count (question : string) (n : Z) :
  contains_char "(" question = false →
  ∃ r content template,
    let tokenizer := AutoTokenizer_from_pretrained "openbmb/MiniCPM-o-2_6" true in
    run_minicpmo question n = ok r
    ∧ prompt r
      = Some (apply_chat_template tokenizer [mkMessage "user" content] true
                (Some template))
    ∧ count_occurrences "(<audio>./</audio>)" content = Z.to_nat n
    ∧ (∃ head, content = head +:+ nl +:+ question)
    ∧ stop_token_ids r
      = Some [convert_tokens_to_ids tokenizer "<|im_end|>";
              convert_tokens_to_ids tokenizer "<|endoftext|>"].
Proof.
  intros Hq. eexists. eexists. eexists.
  split; [ reflexivity | ]. split; [ reflexivity | ].
  split; [ | split; [ by eexists | reflexivity ] ]. unfold str_mul.
  rewrite (count_occurrences_rep _ _ _ _ count_minicpmo_tag_step).
  change (count_occurrences "(<audio>./</audio>)" (nl +:+ question))
    with (count_occurrences "(<audio>./</audio>)" question).
  rewrite (count_occurrences_absent "(" "<audio>./</audio>)" question Hq). lia.
Qed.

End Placeholders.

Section Runner.

Context `{Ext : Externals}.

Variable llm_generate :
  LLMKwargs -> gen_inputs -> SamplingParams -> option (list LoRARequest) ->
  list (list string).

(** *** Reading more than two audio assets *)

(** X8: [run_voxtral] indexes the two bundled assets, so every audio count
    of 3 or more raises [IndexError]. *)
Theorem voxtral_index_error (question : string) (n : Z) :
  3 ≤ n → run_voxtral question n = raise IndexError.
Proof.
  intros Hn. assert (∃ k, Z.to_nat n = S (S (S k))) as [k Hk].
  { exists (Z.to_nat n - 3)%nat. lia. }
  unfold run_voxtral, range. rewrite Hk. reflexivity.
Qed.

(** *** Merging the limits *)

Lemma merge_limits_union (declared : gmap string Z) :
  merge_limits (Some declared) = declared ∪ default_limits.
Proof.
  unfold merge_limits, or_empty, truthy_dict, dict_or.
  case_bool_decide as Hdom; simpl; [ | done ].
  apply dom_empty_iff_L in Hdom. rewrite Hdom. by rewrite (left_id_L ∅ (∪)).
Qed.

Lemma merge_limits_absent : merge_limits None = default_limits.
Proof. unfold merge_limits, or_empty, dict_or. apply (left_id_L ∅ (∪)). Qed.

(** X9: in the merged limits a modality the builder declares has the
    builder's value, any other has its default; so the merged map has the
    builder's modalities and the three default ones. *)
Theorem merge_limits_lookup (declared : gmap string Z) (k : string) :
  merge_limits (Some declared) !! k
  = match declared !! k with
    | Some v => Some v
    | None => default_limits !! k
    end
  ∧ dom (merge_limits (Some declared))
    = dom declared ∪ {[ "image"; "video"; "audio" ]}.
Proof.
  rewrite merge_limits_union. split.
  - rewrite lookup_union. by destruct (declared !! k), (default_limits !! k).
  - rewrite dom_union_L. f_equal.
Qed.

(** X10: merging is idempotent: merged limits, merged again with the
    defaults, do not change. *)
Theorem merge_limits_idempotent (declared : option (gmap string Z)) :
  merge_limits (Some (merge_limits declared)) = merge_limits declared.
Proof.
  rewrite merge_limits_union. destruct declared as [m |].
  - rewrite merge_limits_union.
    by rewrite <- (assoc_L (∪)), (idemp_L (∪) default_limits).
  - rewrite merge_limits_absent. apply (idemp_L (∪)).
Qed.

(** *** Printing the results *)

Lemma print_outputs_first_texts (outs : list (list string))
    (texts : list string) (t : list event) :
  head <$> outs = Some <$> texts →
  print_outputs outs t = (t ++ (EvPrint <$> texts), ok tt).
Proof.
  revert texts t. induction outs as [| o outs IH]; intros texts t Hh.
  - destruct texts; [ | discriminate ]. simpl. by rewrite app_nil_r.
  - destruct texts as [| x texts]; [ discriminate | ].
    injection Hh as Ho Houts. destruct o as [| y o]; [ discriminate | ].
    injection Ho as ->.
    simpl. unfold mbind, lift, emit. simpl.
    rewrite (IH texts _ Houts). by rewrite <- app_assoc.
Qed.

Lemma print_outputs_no_completion (good rest : list (list string))
    (texts : list string) (t : list event) :
  head <$> good = Some <$> texts →
  print_outputs (good ++ [] :: rest) t
  = (t ++ (EvPrint <$> texts), raise IndexError).
Proof.
  revert texts t. induction good as [| o good IH]; intros texts t Hh.
  - destruct texts; [ | discriminate ]. simpl. by rewrite app_nil_r.
  - destruct texts as [| x texts]; [ discriminate | ].
    injection Hh as Ho Hgood. destruct o as [| y o]; [ discriminate | ].
    injection Ho as ->.
    simpl. unfold mbind, lift, emit. simpl.
    rewrite (IH texts _ Hgood). by rewrite <- app_assoc.
Qed.

(** The shape of a run of [run_request] with a positive [num_prompts]. *)
Lemma run_request_unfold (args : Args) (n : Z) (req : ModelRequestData)
    (t : list event) :
  num_prompts args > 0 →
  let kw := llm_kwargs args req in
  let inputs := batch_inputs (build_inputs req (build_mm_data req n))
                             (num_prompts args) in
  let sp := make_sampling_params req in
  let lora := build_lora_request req (num_prompts args) in
  run_request llm_generate args n req t
  = print_outputs (llm_generate kw inputs sp lora)
      (t ++ [EvLLM kw; EvGenerate inputs sp lora]).
Proof.
  intros Hgt. unfold run_request, mbind, emit, lift, assert_.
  rewrite bool_decide_eq_true_2 by lia. simpl.
  by rewrite <- app_assoc.
Qed.

(** X11: on a run where the builder returns and [num_prompts] is positive,
    if every result of [generate] has a completion, [main] returns after
    these events, in this order: the builder call, the engine construction,
    the one [generate] call, and one printed line per result, the text of
    its first completion, in the order of the results. *)
Theorem main_prints_first_completions
    (args : Args) (b : builder) (q : string) (req : ModelRequestData)
    (texts : list string) :
  model_example_map !! model_type args = Some b →
  getitem question_per_audio_count (num_audios args) = ok q →
  call b q (num_audios args) = ok req →
  num_prompts args > 0 →
  let kw := llm_kwargs args req in
  let inputs :=
    batch_inputs (build_inputs req (build_mm_data req (num_audios args)))
                 (num_prompts args) in
  let sp := make_sampling_params req in
  let lora := build_lora_request req (num_prompts args) in
  head <$> llm_generate kw inputs sp lora = Some <$> texts →
  main llm_generate args []
  = ([EvBuilder b q (num_audios args); EvLLM kw; EvGenerate inputs sp lora]
       ++ (EvPrint <$> texts),
     ok tt).
Proof.
  intros Hb Hq Hreq Hgt kw inputs sp lora Hout.
  rewrite (main_calls_builder _ _ _ _ _ Hb Hq Hreq).
  rewrite run_request_unfold by done.
  by rewrite (print_outputs_first_texts _ _ _ Hout).
Qed.

(** X12: if a result of [generate] has no completion, [main] prints the
    first completions of the results before it and then raises
    [IndexError]; the results after it are not printed. *)
Theorem main_stops_at_result_without_completion
    (args : Args) (b : builder) (q : string) (req : ModelRequestData)
    (good rest : list (list string)) (texts : list string) :
  model_example_map !! model_type args = Some b →
  getitem question_per_audio_count (num_audios args) = ok q →
  call b q (num_audios args) = ok req →
  num_prompts args > 0 →
  let kw := llm_kwargs args req in
  let inputs :=
    batch_inputs (build_inputs req (build_mm_data req (num_audios args)))
                 (num_prompts args) in
  let sp := make_sampling_params req in
  let lora := build_lora_request req (num_prompts args) in
  llm_generate kw inputs sp lora = good ++ [] :: rest →
  head <$> good = Some <$> texts →
  main llm_generate args []
  = ([EvBuilder b q (num_audios args); EvLLM kw; EvGenerate inputs sp lora]
       ++ (EvPrint <$> texts),
     raise IndexError).
Proof.
  intros Hb Hq Hreq Hgt kw inputs sp lora Hout Hgood.
  rewrite (main_calls_builder _ _ _ _ _ Hb Hq Hreq).
  rewrite run_request_unfold by done. fold kw inputs sp lora. rewrite Hout.
  by rewrite (print_outputs_no_completion _ _ _ _ Hgood).
Qed.

(** *** Failures before the engine is constructed *)

Lemma question_missing (n : Z) :
  n ∉ num_audios_choices → question_per_audio_count !! n = None.
Proof.
  intros Hn. rewrite choices_cases in Hn. unfold question_per_audio_count.
  rewrite !lookup_insert_ne, lookup_singleton_ne by lia. reflexivity.
Qed.

(** X13: with a registered key and an audio count other than 0, 1 and 2,
    [main] raises [KeyError] when it looks the question up: no builder is
    called and no engine is constructed. *)
Theorem main_unknown_audio_count (args : Args) (b : builder) :
  model_example_map !! model_type args = Some b →
  num_audios args ∉ num_audios_choices →
  main llm_generate args [] = ([], raise KeyError).
Proof.
  intros Hb Hn. unfold main. rewrite Hb. unfold mbind, lift, getitem.
  by rewrite (question_missing _ Hn).
Qed.

(** X14: selecting [whisper] with 0 or 2 audio clips makes [main] fail with
    Whisper's assertion right after the builder call: the engine is not
    constructed and nothing is generated. *)
Theorem main_whisper_rejects_other_counts (args : Args) :
  model_type args = "whisper" →
  num_audios args ∈ num_audios_choices →
  num_audios args ≠ 1 →
  ∃ q,
    question_per_audio_count !! num_audios args = Some q
    ∧ main llm_generate args []
      = ([EvBuilder Run_whisper q (num_audios args)],
         raise (AssertionError
                  (Some "Whisper only support single audio input per prompt"))).
Proof.
  intros Hm Hn Hne. destruct (question_of_choice _ Hn) as [q Hq].
  exists q. split.
  - unfold getitem in Hq.
    by destruct (question_per_audio_count !! num_audios args);
      [ injection Hq as -> | ].
  - unfold main. rewrite Hm.
    change (model_example_map !! "whisper") with (Some Run_whisper).
    unfold mbind, lift, emit. rewrite Hq. simpl.
    unfold run_whisper, assert_. by rewrite bool_decide_eq_false_2 by done.
Qed.

(** *** One engine, one generation *)



(** *** The batch and its adapters *)

Lemma list_mul_singleton {A} (x : A) (n : Z) :
  list_mul [x] n = replicate (Z.to_nat n) x.
Proof.
  unfold list_mul. induction (Z.to_nat n) as [| k IH]; [ done | ].
  simpl. by rewrite IH.
Qed.

(** X16: [generate] receives the one input record itself when
    [num_prompts] is 1, and a list of [num_prompts] copies of it when
    [num_prompts] is larger. *)
Theorem main_batches_num_prompts_copies
    (args : Args) (b : builder) (q : string) (req : ModelRequestData) :
  model_example_map !! model_type args = Some b →
  getitem question_per_audio_count (num_audios args) = ok q →
  call b q (num_audios args) = ok req →
  num_prompts args > 0 →
  let input := build_inputs req (build_mm_data req (num_audios args)) in
  ∃ inputs sp lora,
    generate_calls (fst (main llm_generate args [])) = [(inputs, sp, lora)]
    ∧ (num_prompts args = 1 → inputs = OneInput input)
    ∧ (num_prompts args > 1 →
       inputs = Batch (replicate (Z.to_nat (num_prompts args)) input))
    ∧ input_records inputs = replicate (Z.to_nat (num_prompts args)) input.
Proof.
  intros Hb Hq Hreq Hgt input. eexists _, _, _.
  split; [ by apply (main_generate_call _ _ _ _ _ Hb Hq Hreq) | ].
  fold input. unfold batch_inputs. rewrite list_mul_singleton.
  split; [ | split ].
  - intros ->. reflexivity.
  - intros H1. by rewrite bool_decide_eq_true_2 by done.
  - case_bool_decide as H1; [ done | ].
    assert (num_prompts args = 1) as -> by lia. reflexivity.
Qed.

(** X17: when the builder gave an adapter, [generate] receives exactly one
    copy of it per input record; when it gave none, [lora_request] is
    [None]. *)
Theorem main_one_adapter_per_input
    (args : Args) (b : builder) (q : string) (req : ModelRequestData) :
  model_example_map !! model_type args = Some b →
  getitem question_per_audio_count (num_audios args) = ok q →
  call b q (num_audios args) = ok req →
  num_prompts args > 0 →
  ∃ inputs sp lora,
    generate_calls (fst (main llm_generate args [])) = [(inputs, sp, lora)]
    ∧ (lora_requests req = None → lora = None)
    ∧ (∀ a, lora_requests req = Some [a] →
            lora = Some (replicate (Z.to_nat (num_prompts args)) a))
    ∧ (∀ l, lora = Some l → length l = length (input_records inputs)).
Proof.
  intros Hb Hq Hreq Hgt. eexists _, _, _.
  split; [ by apply (main_generate_call _ _ _ _ _ Hb Hq Hreq) | ].
  assert (Hone : ∀ a, lora_requests req = Some [a] →
                      build_lora_request req (num_prompts args)
                      = Some (replicate (Z.to_nat (num_prompts args)) a)).
  { intros a Ha. unfold build_lora_request. rewrite Ha. simpl.
    by rewrite list_mul_singleton. }
  split; [ | split ].
  - intros Hnone. unfold build_lora_request. by rewrite Hnone.
  - exact Hone.
  - intros l Hl.
    destruct (registered_lora_requests _ _ _ _ Hreq) as [Hnone | [a Ha]].
    + unfold build_lora_request in Hl. rewrite Hnone in Hl. discriminate.
    + rewrite (Hone a Ha) in Hl. injection Hl as <-.
      rewrite length_replicate. unfold batch_inputs.
      rewrite list_mul_singleton.
      case_bool_decide as H1; simpl; [ by rewrite length_replicate | lia ].
Qed.

(** X18: a registered builder supplies an adapter exactly when it enables
    LoRA in its engine arguments, and the adapter is always the one named
    [speech] with id 1. *)
Theorem adapters_only_with_lora_enabled
    (b : builder) (question : string) (n : Z) (req : ModelRequestData) :
  call b question n = ok req →
  (is_Some (lora_requests req) ↔ enable_lora (engine_args req) = Some true)
  ∧ ∀ l, lora_requests req = Some l →
         ∃ path, l = [mkLoRARequest "speech" 1 path].
Proof.
  assert (Hno : ∀ r : ModelRequestData,
            lora_requests r = None → enable_lora (engine_args r) = None →
            (is_Some (lora_requests r) ↔ enable_lora (engine_args r) = Some true)
            ∧ ∀ l, lora_requests r = Some l →
                   ∃ path, l = [mkLoRARequest "speech" 1 path]).
  { intros r Hl He. rewrite Hl, He. split; [ | done ].
    split; [ by intros [? ?] | done ]. }
  assert (Hyes : ∀ (r : ModelRequestData) path,
            lora_requests r = Some [mkLoRARequest "speech" 1 path] →
            enable_lora (engine_args r) = Some true →
            (is_Some (lora_requests r) ↔ enable_lora (engine_args r) = Some true)
            ∧ ∀ l, lora_requests r = Some l →
                   ∃ path, l = [mkLoRARequest "speech" 1 path]).
  { intros r path Hl He. rewrite Hl, He. split; [ done | ].
    intros l [= <-]. by eexists. }
  destruct b; simpl; intros Hcall.
  - unfold run_voxtral in Hcall.
    destruct (comprehension _ _) as [e | loaded]; simpl in Hcall;
      [ discriminate | ].
    injection Hcall as <-. by apply Hno.
  - injection Hcall as <-. by eapply Hyes.
  - injection Hcall as <-. by apply Hno.
  - injection Hcall as <-. by eapply Hyes.
  - injection Hcall as <-. by eapply Hyes.
  - injection Hcall as <-. by apply Hno.
  - injection Hcall as <-. by apply Hno.
  - injection Hcall as <-. by apply Hno.
  - unfold run_whisper, assert_ in Hcall.
    destruct (bool_decide (n = 1)); simpl in Hcall; [ | discriminate ].
    injection Hcall as <-. by apply Hno.
Qed.

(** *** The input records *)

Lemma question_found (n : Z) (q : string) :
  getitem question_per_audio_count n = ok q → n ∈ num_audios_choices.
Proof.
  intros Hq. destruct (decide (n ∈ num_audios_choices)) as [| Hn]; [ done | ].
  unfold getitem in Hq. by rewrite (question_missing _ Hn) in Hq.
Qed.

Lemma input_records_batch (x i : gmap string input_value) (np : Z) :
  i ∈ input_records (batch_inputs x np) → i = x.
Proof.
  unfold batch_inputs. rewrite list_mul_singleton.
  case_bool_decide; simpl.
  - by intros [-> _]%elem_of_replicate.
  - by intros ->%list_elem_of_singleton.
Qed.

Lemma build_inputs_multi_modal_data (req : ModelRequestData) (mm : mm_payload) :
  build_inputs req mm !! "multi_modal_data" = Some (VMultiModal mm).
Proof.
  unfold build_inputs.
  destruct (prompt req) as [p |]; [ destruct (truthy_str (Some p)) | ];
    by rewrite lookup_insert_ne, lookup_singleton_eq.
Qed.

(** Only [run_voxtral] returns a multimodal payload of its own. *)
Lemma only_voxtral_has_payload (b : builder) (question : string) (n : Z)
    (req : ModelRequestData) :
  b ≠ Run_voxtral → call b question n = ok req → multi_modal_data req = None.
Proof.
  intros Hb. destruct b; simpl; intros Hcall;
    try (injection Hcall as <-; reflexivity); [ done | ].
  unfold run_whisper, assert_ in Hcall.
  destruct (bool_decide (n = 1)); simpl in Hcall; [ | discriminate ].
  by injection Hcall as <-.
Qed.

(** Only [run_minicpmo] returns stop tokens. *)
Lemma only_minicpmo_has_stop_tokens (b : builder) (question : string) (n : Z)
    (req : ModelRequestData) :
  b ≠ Run_minicpmo → call b question n = ok req → stop_token_ids req = None.
Proof.
  intros Hb. destruct b; simpl; intros Hcall;
    try (injection Hcall as <-; reflexivity); [ | done | ].
  - unfold run_voxtral in Hcall.
    destruct (comprehension _ _) as [e | loaded]; simpl in Hcall;
      [ discriminate | ].
    by injection Hcall as <-.
  - unfold run_whisper, assert_ in Hcall.
    destruct (bool_decide (n = 1)); simpl in Hcall; [ | discriminate ].
    by injection Hcall as <-.
Qed.

(** X19: for every builder but [run_voxtral], the audio list [main] attaches
    to each input record has exactly as many clips as the audio limit with
    which the engine was constructed, namely [num_audios]. *)
Theorem default_payload_matches_declared_limit
    (args : Args) (b : builder) (q : string) (req : ModelRequestData) :
  model_example_map !! model_type args = Some b →
  getitem question_per_audio_count (num_audios args) = ok q →
  call b q (num_audios args) = ok req →
  num_prompts args > 0 →
  b ≠ Run_voxtral →
  ∃ inputs sp lora kw limits mm,
    generate_calls (fst (main llm_generate args [])) = [(inputs, sp, lora)]
    ∧ engine_constructions (fst (main llm_generate args [])) = [kw]
    ∧ limit_mm_per_prompt (llm_engine_args kw) = Some limits
    ∧ limits !! "audio" = Some (num_audios args)
    ∧ (∀ i, i ∈ input_records inputs →
            i !! "multi_modal_data" = Some (VMultiModal mm))
    ∧ Z.of_nat (length (default [] (mm !! "audio"))) = num_audios args.
Proof.
  intros Hb Hq Hreq Hgt Hnv.
  eexists _, _, _, (llm_kwargs args req), _,
    (build_mm_data req (num_audios args)).
  split; [ by apply (main_generate_call _ _ _ _ _ Hb Hq Hreq) | ].
  split; [ by apply (main_engine_constructions _ _ _ _ _ Hb Hq Hreq) | ].
  split; [ reflexivity | ]. split; [ | split ].
  - rewrite (registered_declared_limits _ _ _ _ Hreq), merge_declared_audio.
    by rewrite !lookup_insert_ne, lookup_singleton_eq.
  - intros i ->%input_records_batch. apply build_inputs_multi_modal_data.
  - unfold build_mm_data.
    rewrite (only_voxtral_has_payload _ _ _ _ Hnv Hreq).
    apply question_found, choices_cases in Hq as [-> | [-> | ->]]; reflexivity.
Qed.

(** The request [run_voxtral] returns on an audio count of the command
    line: the tokenizer is given the chunks of the first [audio_count]
    assets, in order, then the text. *)
Lemma voxtral_request (question : string) (n : Z) :
  n ∈ num_audios_choices →
  let chunks : list (RawAudio + string) :=
    ((fun a => inl (RawAudio_from_audio
                      (Audio_from_file (get_local_path a) false)))
       <$> take (Z.to_nat n) audio_assets) ++ [inr question] in
  let tokenized :=
    encode_chat_completion "mistralai/Voxtral-Mini-3B-2507"
      "mistralai/Voxtral-Mini-3B-2507" chunks in
  ∃ req,
    run_voxtral question n = ok req
    ∧ prompt req = None
    ∧ prompt_token_ids req = Some (IdsList (tokens tokenized))
    ∧ multi_modal_data req
      = Some {[ "audio" := (fun au => (audio_array au, sampling_rate au))
                             <$> audios tokenized ]}
    ∧ lora_requests req = None.
Proof.
  intros Hn. apply choices_cases in Hn as [-> | [-> | ->]];
    (eexists; split; [ reflexivity | by repeat split ]).
Qed.

(** X20: selecting [voxtral], every input record [main] passes to
    [generate] carries the token ids the Mistral tokenizer returned for the
    chunks of the first [num_audios] assets followed by the question, and as
    multimodal payload the audio clips of that same tokenizer answer, not
    the bundled (waveform, rate) pairs; it has no [prompt] entry, and no
    adapter is requested. *)
Theorem main_voxtral_forwards_tokenizer_audios (args : Args) (q : string) :
  model_type args = "voxtral" →
  getitem question_per_audio_count (num_audios args) = ok q →
  num_prompts args > 0 →
  let chunks : list (RawAudio + string) :=
    ((fun a => inl (RawAudio_from_audio
                      (Audio_from_file (get_local_path a) false)))
       <$> take (Z.to_nat (num_audios args)) audio_assets) ++ [inr q] in
  let tokenized :=
    encode_chat_completion "mistralai/Voxtral-Mini-3B-2507"
      "mistralai/Voxtral-Mini-3B-2507" chunks in
  ∃ inputs sp,
    generate_calls (fst (main llm_generate args [])) = [(inputs, sp, None)]
    ∧ ∀ i, i ∈ input_records inputs →
        i = <[ "prompt_token_ids" := VTokenIds (Some (IdsList (tokens tokenized))) ]>
              {[ "multi_modal_data" :=
                   VMultiModal
                     {[ "audio" := (fun au => (audio_array au, sampling_rate au))
                                     <$> audios tokenized ]} ]}.
Proof.
  intros Hm Hq Hgt chunks tokenized.
  destruct (voxtral_request q (num_audios args) (question_found _ _ Hq))
    as (req & Hreq & Hp & Hids & Hmm & Hl).
  assert (Hb : model_example_map !! model_type args = Some Run_voxtral)
    by (by rewrite Hm).
  eexists _, _. split.
  - rewrite (main_generate_call _ _ _ _ _ Hb Hq Hreq Hgt).
    unfold build_lora_request. rewrite Hl. reflexivity.
  - intros i ->%input_records_batch.
    unfold build_inputs, build_mm_data. rewrite Hp, Hids, Hmm.
    unfold truthy_dict, mm_payload. rewrite dom_singleton_L.
    rewrite bool_decide_eq_false_2
      by (intros H; by apply non_empty_singleton_L in H).
    reflexivity.
Qed.

(** X21: every input record passed to [generate] has exactly two entries:
    [multi_modal_data], and [prompt] when the builder's prompt is a
    non-empty string, [prompt_token_ids] otherwise (also when the prompt is
    the empty string), then with the builder's [prompt_token_ids], be it
    [None]. *)
Theorem input_record_entries
    (args : Args) (b : builder) (q : string) (req : ModelRequestData) :
  model_example_map !! model_type args = Some b →
  getitem question_per_audio_count (num_audios args) = ok q →
  call b q (num_audios args) = ok req →
  num_prompts args > 0 →
  ∃ inputs sp lora,
    generate_calls (fst (main llm_generate args [])) = [(inputs, sp, lora)]
    ∧ ∀ i, i ∈ input_records inputs →
        (truthy_str (prompt req) = true →
         dom i = {[ "multi_modal_data"; "prompt" ]}
         ∧ i !! "prompt" = VPrompt <$> prompt req)
        ∧ (truthy_str (prompt req) = false →
           dom i = {[ "multi_modal_data"; "prompt_token_ids" ]}
           ∧ i !! "prompt_token_ids"
             = Some (VTokenIds (prompt_token_ids req))).
Proof.
  intros Hb Hq Hreq Hgt. eexists _, _, _.
  split; [ by apply (main_generate_call _ _ _ _ _ Hb Hq Hreq) | ].
  intros i ->%input_records_batch. unfold build_inputs.
  destruct (prompt req) as [p |]; [ destruct (truthy_str (Some p)) | ].
  - split; [ intros _ | discriminate ].
    rewrite dom_insert_L, dom_singleton_L, lookup_insert_eq.
    split; [ apply (comm_L (∪)) | done ].
  - split; [ discriminate | intros _ ].
    rewrite dom_insert_L, dom_singleton_L, lookup_insert_eq.
    split; [ apply (comm_L (∪)) | done ].
  - split; [ discriminate | intros _ ].
    rewrite dom_insert_L, dom_singleton_L, lookup_insert_eq.
    split; [ apply (comm_L (∪)) | done ].
Qed.

(** X22: [generate] is always called with temperature 0.2 and at most 64
    new tokens; stop tokens are passed only for [minicpmo]. *)
Theorem main_sampling_params
    (args : Args) (b : builder) (q : string) (req : ModelRequestData) :
  model_example_map !! model_type args = Some b →
  getitem question_per_audio_count (num_audios args) = ok q →
  call b q (num_audios args) = ok req →
  num_prompts args > 0 →
  ∃ inputs sp lora,
    generate_calls (fst (main llm_generate args [])) = [(inputs, sp, lora)]
    ∧ temperature sp = 2 # 10
    ∧ max_tokens sp = 64
    ∧ (b ≠ Run_minicpmo → sampling_stop_token_ids sp = None).
Proof.
  intros Hb Hq Hreq Hgt. eexists _, _, _.
  split; [ by apply (main_generate_call _ _ _ _ _ Hb Hq Hreq) | ].
  split; [ reflexivity | ]. split; [ reflexivity | ].
  intros Hne. simpl. by eapply only_minicpmo_has_stop_tokens.
Qed.

End Runner.

(** * The further properties on concrete command lines *)

Lemma granite_speech_placeholder_count_witness :
  contains_char "<" "What sport and what nursery rhyme are referenced?" = false
  ∧ ∃ r p, run_granite_speech (Ext := demo_externals)
             "What sport and what nursery rhyme are referenced?" 2 = ok r
           ∧ prompt r = Some p
           ∧ count_occurrences "<|audio|>" p = 2%nat.
Proof.
  split; [ reflexivity | ].
  apply (granite_speech_placeholder_count (Ext := demo_externals)
           "What sport and what nursery rhyme are referenced?" 2).
  reflexivity.
Defined.

Lemma phi4_multimodal_placeholder_count_witness :
  contains_char "<" "What is recited in the audio?" = false
  ∧ ∃ r p, run_phi4_multimodal (Ext := demo_externals)
             "What is recited in the audio?" 1 = ok r
           ∧ prompt r = Some p
           ∧ count_occurrences "<|audio|>" p = 1%nat.
Proof.
  split; [ reflexivity | ].
  apply (phi4_multimodal_placeholder_count (Ext := demo_externals)
           "What is recited in the audio?" 1).
  reflexivity.
Defined.

Lemma qwen2_5_omni_placeholder_count_witness :
  contains_char "<" "What sport and what nursery rhyme are referenced?" = false
  ∧ ∃ r p, run_qwen2_5_omni (Ext := demo_externals)
             "What sport and what nursery rhyme are referenced?" 2 = ok r
           ∧ prompt r = Some p
           ∧ count_occurrences qwen_audio_block p = 2%nat.
Proof.
  split; [ reflexivity | ].
  apply (qwen2_5_omni_placeholder_count (Ext := demo_externals)
           "What sport and what nursery rhyme are referenced?" 2).
  reflexivity.
Defined.

Lemma phi4mm_placeholder_count_witness :
  contains_char "<" "What sport and what nursery rhyme are referenced?" = false
  ∧ ∃ r p, run_phi4mm (Ext := demo_externals)
             "What sport and what nursery rhyme are referenced?" 2 = ok r
           ∧ prompt r = Some p
           ∧ count_occurrences "<|audio_" p = 2%nat.
Proof.
  split; [ reflexivity | ].
  apply (phi4mm_placeholder_count (Ext := demo_externals)
           "What sport and what nursery rhyme are referenced?" 2).
  reflexivity.
Defined.

Lemma qwen2_audio_placeholder_count_witness :
  contains_char "<" "What is recited in the audio?" = false
  ∧ ∃ r p, run_qwen2_audio (Ext := demo_externals)
             "What is recited in the audio?" 1 = ok r
           ∧ prompt r = Some p
           ∧ count_occurrences qwen_audio_block p = 1%nat.
Proof.
  split; [ reflexivity | ].
  apply (qwen2_audio_placeholder_count (Ext := demo_externals)
           "What is recited in the audio?" 1).
  reflexivity.
Defined.

Lemma ultravox_message_placeholder_count_witness :
  contains_char "<" "What is recited in the audio?" = false
  ∧ ∃ r content,
      run_ultravox (Ext := demo_externals) "What is recited in the audio?" 1
      = ok r
      ∧ prompt r
        = Some (apply_chat_template (Externals := demo_externals)
                  (AutoTokenizer_from_pretrained (Externals := demo_externals)
                     "fixie-ai/ultravox-v0_5-llama-3_2-1b" false)
                  [mkMessage "user" content] true None)
      ∧ count_occurrences "<|audio|>" content = 1%nat
      ∧ ∃ head, content = head +:+ "What is recited in the audio?".
Proof.
  split; [ reflexivity | ].
  apply (ultravox_message_placeholder_count (Ext := demo_externals)
           "What is recited in the audio?" 1).
  reflexivity.
Defined.

Lemma minicpmo_message_placeholder_count_witness :
  contains_char "(" "What sport and what nursery rhyme are referenced?" = false
  ∧ ∃ r content,
      run_minicpmo (Ext := demo_externals)
        "What sport and what nursery rhyme are referenced?" 2 = ok r
      ∧ count_occurrences "(<audio>./</audio>)" content = 2%nat
      ∧ (∃ head, content
                 = head +:+ nl
                   +:+ "What sport and what nursery rhyme are referenced?")
      ∧ stop_token_ids r = Some [10; 13].
Proof.
  split; [ reflexivity | ].
  destruct (minicpmo_message_placeholder_count (Ext := demo_externals)
              "What sport and what nursery rhyme are referenced?" 2 eq_refl)
    as (r & content & template & Hr & _ & Hc & Hh & Hs).
  exists r, content.
  split; [ exact Hr | ]. split; [ exact Hc | ]. split; [ exact Hh | exact Hs ].
Defined.

Lemma voxtral_index_error_witness :
  3 ≤ 3
  ∧ run_voxtral (Ext := demo_externals) "What is 1+1?" 3 = raise IndexError.
Proof.
  split; [ lia | ].
  apply (voxtral_index_error (Ext := demo_externals) "What is 1+1?" 3). lia.
Defined.

Lemma main_prints_first_completions_witness :
  ∃ req kw inputs sp lora,
    model_example_map !! model_type args_granite_three = Some Run_granite_speech
    ∧ getitem question_per_audio_count (num_audios args_granite_three)
      = ok "What is recited in the audio?"
    ∧ call (Ext := demo_externals) Run_granite_speech
        "What is recited in the audio?" 1 = ok req
    ∧ num_prompts args_granite_three > 0
    ∧ head <$> demo_generate kw inputs sp lora = Some <$> ["ok"; "ok"; "ok"]
    ∧ main demo_generate args_granite_three []
      = ([EvBuilder Run_granite_speech "What is recited in the audio?" 1;
          EvLLM kw; EvGenerate inputs sp lora;
          EvPrint "ok"; EvPrint "ok"; EvPrint "ok"],
         ok tt).
Proof.
  assert (Hgt : num_prompts args_granite_three > 0) by (simpl; lia).
  eexists _, _, _, _, _.
  split; [ reflexivity | ]. split; [ reflexivity | ]. split; [ reflexivity | ].
  split; [ exact Hgt | ].
  split;
    [ | apply (main_prints_first_completions (Ext := demo_externals)
                 demo_generate args_granite_three Run_granite_speech
                 "What is recited in the audio?" _ ["ok"; "ok"; "ok"]
                 eq_refl eq_refl eq_refl Hgt eq_refl) ].
  reflexivity.
Defined.

Lemma main_stops_at_result_without_completion_witness :
  ∃ req kw inputs sp lora,
    model_example_map !! model_type args_qwen2_two_audios = Some Run_qwen2_audio
    ∧ getitem question_per_audio_count (num_audios args_qwen2_two_audios)
      = ok "What sport and what nursery rhyme are referenced?"
    ∧ call (Ext := demo_externals) Run_qwen2_audio
        "What sport and what nursery rhyme are referenced?" 2 = ok req
    ∧ num_prompts args_qwen2_two_audios > 0
    ∧ demo_generate_no_completion kw inputs sp lora
      = [["first"]] ++ ([] :: [["third"]])
    ∧ main demo_generate_no_completion args_qwen2_two_audios []
      = ([EvBuilder Run_qwen2_audio
            "What sport and what nursery rhyme are referenced?" 2;
          EvLLM kw; EvGenerate inputs sp lora; EvPrint "first"],
         raise IndexError).
Proof.
  assert (Hgt : num_prompts args_qwen2_two_audios > 0) by (simpl; lia).
  eexists _, _, _, _, _.
  split; [ reflexivity | ]. split; [ reflexivity | ]. split; [ reflexivity | ].
  split; [ exact Hgt | ].
  split;
    [ | apply (main_stops_at_result_without_completion (Ext := demo_externals)
                 demo_generate_no_completion
                 args_qwen2_two_audios Run_qwen2_audio
                 "What sport and what nursery rhyme are referenced?" _
                 [["first"]] [["third"]] ["first"]
                 eq_refl eq_refl eq_refl Hgt eq_refl eq_refl) ].
  reflexivity.
Defined.

Lemma main_unknown_audio_count_witness :
  model_example_map !! model_type args_five_audios = Some Run_ultravox
  ∧ (num_audios args_five_audios ∉ num_audios_choices)
  ∧ main (Ext := demo_externals) demo_generate args_five_audios []
    = ([], raise KeyError).
Proof.
  assert (Hn : num_audios args_five_audios ∉ num_audios_choices).
  { rewrite choices_cases. simpl. lia. }
  split; [ reflexivity | ]. split; [ exact Hn | ].
  apply (main_unknown_audio_count (Ext := demo_externals) demo_generate
           args_five_audios Run_ultravox eq_refl Hn).
Defined.

Lemma main_whisper_rejects_other_counts_witness :
  model_type args_whisper_two = "whisper"
  ∧ num_audios args_whisper_two ∈ num_audios_choices
  ∧ num_audios args_whisper_two ≠ 1
  ∧ ∃ q,
      question_per_audio_count !! num_audios args_whisper_two = Some q
      ∧ main (Ext := demo_externals) demo_generate args_whisper_two []
        = ([EvBuilder Run_whisper q 2],
           raise (AssertionError
                    (Some "Whisper only support single audio input per prompt"))).
Proof.
  assert (Hn : num_audios args_whisper_two ∈ num_audios_choices).
  { apply choices_cases. simpl. lia. }
  assert (Hne : num_audios args_whisper_two ≠ 1) by (simpl; lia).
  split; [ reflexivity | ]. split; [ exact Hn | ]. split; [ exact Hne | ].
  apply (main_whisper_rejects_other_counts (Ext := demo_externals)
           demo_generate args_whisper_two eq_refl Hn Hne).
Defined.

Lemma main_batches_num_prompts_copies_witness :
  ∃ req input sp lora,
    model_example_map !! model_type args_granite_three = Some Run_granite_speech
    ∧ getitem question_per_audio_count (num_audios args_granite_three)
      = ok "What is recited in the audio?"
    ∧ call (Ext := demo_externals) Run_granite_speech
        "What is recited in the audio?" 1 = ok req
    ∧ num_prompts args_granite_three > 0
    ∧ generate_calls (fst (main demo_generate args_granite_three []))
      = [(Batch [input; input; input], sp, lora)].
Proof.
  assert (Hgt : num_prompts args_granite_three > 0) by (simpl; lia).
  eexists.
  destruct (main_batches_num_prompts_copies (Ext := demo_externals)
              demo_generate args_granite_three Run_granite_speech
              "What is recited in the audio?" _ eq_refl eq_refl eq_refl Hgt)
    as (inputs & sp & lora & Hcalls & _ & Hbatch & _).
  eexists. exists sp, lora.
  split; [ reflexivity | ]. split; [ reflexivity | ]. split; [ reflexivity | ].
  split; [ exact Hgt | ].
  rewrite Hcalls, Hbatch by (simpl; lia). reflexivity.
Defined.

Lemma main_one_adapter_per_input_witness :
  ∃ req inputs sp,
    model_example_map !! model_type args_granite_three = Some Run_granite_speech
    ∧ getitem question_per_audio_count (num_audios args_granite_three)
      = ok "What is recited in the audio?"
    ∧ call (Ext := demo_externals) Run_granite_speech
        "What is recited in the audio?" 1 = ok req
    ∧ num_prompts args_granite_three > 0
    ∧ generate_calls (fst (main demo_generate args_granite_three []))
      = [(inputs, sp,
          Some (replicate 3
                  (mkLoRARequest "speech" 1 "ibm-granite/granite-speech-3.3-8b")))].
Proof.
  assert (Hgt : num_prompts args_granite_three > 0) by (simpl; lia).
  eexists.
  destruct (main_one_adapter_per_input (Ext := demo_externals)
              demo_generate args_granite_three Run_granite_speech
              "What is recited in the audio?" _ eq_refl eq_refl eq_refl Hgt)
    as (inputs & sp & lora & Hcalls & _ & Hone & _).
  exists inputs, sp.
  split; [ reflexivity | ]. split; [ reflexivity | ]. split; [ reflexivity | ].
  split; [ exact Hgt | ].
  rewrite Hcalls, (Hone _ eq_refl). reflexivity.
Defined.

Lemma adapters_only_with_lora_enabled_witness :
  ∃ req path,
    call (Ext := demo_externals) Run_phi4mm "What is recited in the audio?" 1
    = ok req
    ∧ enable_lora (engine_args req) = Some true
    ∧ lora_requests req = Some [mkLoRARequest "speech" 1 path].
Proof.
  eexists.
  destruct (adapters_only_with_lora_enabled (Ext := demo_externals)
              Run_phi4mm "What is recited in the audio?" 1 _ eq_refl)
    as [Hiff Hl].
  destruct (Hl _ eq_refl) as [path Hpath].
  exists path. split; [ reflexivity | ].
  split; [ apply Hiff; by eexists | ]. exact (f_equal Some Hpath).
Defined.

Lemma default_payload_matches_declared_limit_witness :
  ∃ req inputs sp lora kw limits mm,
    model_example_map !! model_type args_qwen2_two_audios = Some Run_qwen2_audio
    ∧ getitem question_per_audio_count (num_audios args_qwen2_two_audios)
      = ok "What sport and what nursery rhyme are referenced?"
    ∧ call (Ext := demo_externals) Run_qwen2_audio
        "What sport and what nursery rhyme are referenced?" 2 = ok req
    ∧ num_prompts args_qwen2_two_audios > 0
    ∧ Run_qwen2_audio ≠ Run_voxtral
    ∧ generate_calls (fst (main demo_generate args_qwen2_two_audios []))
      = [(inputs, sp, lora)]
    ∧ engine_constructions (fst (main demo_generate args_qwen2_two_audios []))
      = [kw]
    ∧ limit_mm_per_prompt (llm_engine_args kw) = Some limits
    ∧ limits !! "audio" = Some 2
    ∧ (∀ i, i ∈ input_records inputs →
            i !! "multi_modal_data" = Some (VMultiModal mm))
    ∧ Z.of_nat (length (default [] (mm !! "audio"))) = 2.
Proof.
  assert (Hgt : num_prompts args_qwen2_two_audios > 0) by (simpl; lia).
  assert (Hnv : Run_qwen2_audio ≠ Run_voxtral) by discriminate.
  eexists.
  destruct (default_payload_matches_declared_limit (Ext := demo_externals)
              demo_generate args_qwen2_two_audios Run_qwen2_audio
              "What sport and what nursery rhyme are referenced?" _
              eq_refl eq_refl eq_refl Hgt Hnv)
    as (inputs & sp & lora & kw & limits & mm & H1 & H2 & H3 & H4 & H5 & H6).
  exists inputs, sp, lora, kw, limits, mm.
  split; [ reflexivity | ]. split; [ reflexivity | ]. split; [ reflexivity | ].
  split; [ exact Hgt | ]. split; [ exact Hnv | ].
  split; [ exact H1 | ]. split; [ exact H2 | ]. split; [ exact H3 | ].
  split; [ exact H4 | ]. split; [ exact H5 | exact H6 ].
Defined.

Lemma main_voxtral_forwards_tokenizer_audios_witness :
  ∃ inputs sp,
    model_type args_voxtral_one = "voxtral"
    ∧ getitem question_per_audio_count (num_audios args_voxtral_one)
      = ok "What is recited in the audio?"
    ∧ num_prompts args_voxtral_one > 0
    ∧ generate_calls
        (fst (main (Ext := demo_externals) demo_generate args_voxtral_one []))
      = [(inputs, sp, None)]
    ∧ ∀ i, i ∈ input_records inputs →
        i = <[ "prompt_token_ids" := VTokenIds (Some (IdsList [1; 24; 29])) ]>
              {[ "multi_modal_data" :=
                   VMultiModal {[ "audio" := [([25], 16000)] ]} ]}.
Proof.
  assert (Hgt : num_prompts args_voxtral_one > 0) by (simpl; lia).
  destruct (main_voxtral_forwards_tokenizer_audios (Ext := demo_externals)
              demo_generate args_voxtral_one "What is recited in the audio?"
              eq_refl eq_refl Hgt)
    as (inputs & sp & Hcalls & Hrec).
  exists inputs, sp.
  split; [ reflexivity | ]. split; [ reflexivity | ]. split; [ exact Hgt | ].
  split; [ exact Hcalls | ].
  intros i Hi. rewrite (Hrec i Hi). reflexivity.
Defined.

Lemma input_record_entries_witness :
  ∃ req inputs sp lora,
    model_example_map !! model_type args_qwen2_two_audios = Some Run_qwen2_audio
    ∧ getitem question_per_audio_count (num_audios args_qwen2_two_audios)
      = ok "What sport and what nursery rhyme are referenced?"
    ∧ call (Ext := demo_externals) Run_qwen2_audio
        "What sport and what nursery rhyme are referenced?" 2 = ok req
    ∧ num_prompts args_qwen2_two_audios > 0
    ∧ generate_calls (fst (main demo_generate args_qwen2_two_audios []))
      = [(inputs, sp, lora)]
    ∧ ∀ i, i ∈ input_records inputs →
           dom i = {[ "multi_modal_data"; "prompt" ]}.
Proof.
  assert (Hgt : num_prompts args_qwen2_two_audios > 0) by (simpl; lia).
  eexists.
  destruct (input_record_entries (Ext := demo_externals)
              demo_generate args_qwen2_two_audios Run_qwen2_audio
              "What sport and what nursery rhyme are referenced?" _
              eq_refl eq_refl eq_refl Hgt)
    as (inputs & sp & lora & Hcalls & Hrec).
  exists inputs, sp, lora.
  split; [ reflexivity | ]. split; [ reflexivity | ]. split; [ reflexivity | ].
  split; [ exact Hgt | ]. split; [ exact Hcalls | ].
  intros i Hi. destruct (Hrec i Hi) as [Htrue _].
  exact (proj1 (Htrue eq_refl)).
Defined.

Lemma main_sampling_params_witness :
  ∃ req inputs sp lora,
    model_example_map !! model_type args_qwen2_two_audios = Some Run_qwen2_audio
    ∧ getitem question_per_audio_count (num_audios args_qwen2_two_audios)
      = ok "What sport and what nursery rhyme are referenced?"
    ∧ call (Ext := demo_externals) Run_qwen2_audio
        "What sport and what nursery rhyme are referenced?" 2 = ok req
    ∧ num_prompts args_qwen2_two_audios > 0
    ∧ generate_calls (fst (main demo_generate args_qwen2_two_audios []))
      = [(inputs, sp, lora)]
    ∧ temperature sp = 2 # 10
    ∧ max_tokens sp = 64
    ∧ sampling_stop_token_ids sp = None.
Proof.
  assert (Hgt : num_prompts args_qwen2_two_audios > 0) by (simpl; lia).
  eexists.
  destruct (main_sampling_params (Ext := demo_externals)
              demo_generate args_qwen2_two_audios Run_qwen2_audio
              "What sport and what nursery rhyme are referenced?" _
              eq_refl eq_refl eq_refl Hgt)
    as (inputs & sp & lora & Hcalls & Ht & Hm & Hs).
  exists inputs, sp, lora.
  split; [ reflexivity | ]. split; [ reflexivity | ]. split; [ reflexivity | ].
  split; [ exact Hgt | ]. split; [ exact Hcalls | ].
  split; [ exact Ht | ]. split; [ exact Hm | ]. apply Hs. discriminate.
Defined.
